(** * Adaptive-learning recommendation engine

    A shallow embedding of the two API servers of the repository:

    - [Enhanced]: the prerequisite-aware server (class [EnhancedDQNModel],
      the routes [/api/complete], [/api/suggest-path], [/api/set-goal],
      [/api/reset-progress], [/api/prerequisites/:resourceName],
      [/api/available-resources], [/api/learner-progress] without its
      [progressPercentage] and [sessionTime] fields, and the helper
      [checkAchievements]);
    - [Mock]: [backend/server.js] (class [MockDQNModel] with [predictPath],
      [getResourcePositions], [calculateDistance] and [generatePathTo], and
      the routes [/api/complete] and [/api/reset-progress]).

    Modelling conventions.
    - The object literals [prerequisites] and [learningPaths] are finite maps
      over their own keys ([gmap string (list string)]); [obj[k] || d] is
      [default d (obj !! k)], an array being truthy.  The properties that
      every JavaScript object inherits from [Object.prototype] (such as
      [constructor]) are not modelled: resource names and goal identifiers
      are taken not to collide with them.
    - The [Set] of completed resources is a [gset string]: [has] is
      membership, [add] is union with a singleton, [size] is [size].
    - [extractedData] is the list of entries of the parsed data file in
      [Object.entries] order, each with two numeric coordinates.
    - A coordinate of a position is a JavaScript value: an integer, [NaN]
      or [undefined] (a request body may omit the field).
    - [Math.random() < 0.5] is an oracle [rnd : nat -> bool] asked with the
      loop counter; the synthetic [confidence] numbers, the timestamps and
      [getConfidenceScore] are floating-point or clock values that no
      decision of the engine reads, and are left out of the records.
    - [score] is a JavaScript number that only ever holds multiples of 10
      far below 2^53, where its arithmetic is exact: it is a [Z].
    - [while] loops are fixpoints on a fuel argument that return [None]
      when the fuel runs out before the loop exits. *)

From Stdlib Require Import ZArith QArith Qround Lia.
From stdpp Require Import gmap strings list.

Local Open Scope string_scope.
Local Open Scope list_scope.
Local Open Scope Z_scope.

(** ** JavaScript values held by the coordinate fields *)

Module JS.

Inductive value : Type :=
| Num (z : Z)
| NaN
| Undefined.

(** [a !== b] *)
Definition strict_neq (a b : value) : bool :=
  match a, b with
  | Num p, Num q => negb (Z.eqb p q)
  | Undefined, Undefined => false
  | _, _ => true
  end.

(** [a < b]: a comparison with [NaN] or [undefined] is false *)
Definition lt (a b : value) : bool :=
  match a, b with
  | Num p, Num q => Z.ltb p q
  | _, _ => false
  end.

(** [a > b] *)
Definition gt (a b : value) : bool :=
  match a, b with
  | Num p, Num q => Z.ltb q p
  | _, _ => false
  end.

(** the value stored by [a++] *)
Definition incr (a : value) : value :=
  match a with
  | Num p => Num (p + 1)
  | _ => NaN
  end.

(** the value stored by [a--] *)
Definition decr (a : value) : value :=
  match a with
  | Num p => Num (p - 1)
  | _ => NaN
  end.

(** [!s] on a string is true exactly on the empty string *)
Definition falsy (s : string) : bool := String.eqb s "".

(** [a - b] *)
Definition sub (a b : value) : value :=
  match a, b with
  | Num p, Num q => Num (p - q)
  | _, _ => NaN
  end.

(** [a + b] on numbers *)
Definition add (a b : value) : value :=
  match a, b with
  | Num p, Num q => Num (p + q)
  | _, _ => NaN
  end.

(** [Math.abs(a)] *)
Definition abs (a : value) : value :=
  match a with
  | Num p => Num (Z.abs p)
  | _ => NaN
  end.

End JS.

(** ** Data shared by the two servers *)

(** [{ x, y }] *)
Record Position : Type := mkPosition {
  pos_x : JS.value;
  pos_y : JS.value
}.

(** [PathStep] of [types/index.ts]; [step] is optional *)
Record PathStep : Type := mkPathStep {
  step_x : JS.value;
  step_y : JS.value;
  step_action : string;
  step_index : option nat
}.

(** one entry of [extracted_data.json] *)
Record RawEntry : Type := mkRawEntry {
  x_coordinate : Q;
  y_coordinate : Q
}.

(** [{ name, x, y }] as pushed by [getResourcePositions] *)
Record Resource : Type := mkResource {
  res_name : string;
  res_x : Z;
  res_y : Z
}.

Definition position_of (r : Resource) : Position :=
  mkPosition (JS.Num (res_x r)) (JS.Num (res_y r)).

(** [Math.floor(parseFloat(v) * scale)], read in exact arithmetic *)
Definition floor_scaled (v : Q) (scale : Z) : Z :=
  Qfloor (v * inject_Z scale).

(** the position after a path: that of its last step, or the start *)
Definition final_position (start : Position) (path : list PathStep) : Position :=
  match last path with
  | Some s => mkPosition (step_x s) (step_y s)
  | None => start
  end.

(** ** The prerequisite-aware server *)

Module Enhanced.

Record EnhancedDQNModel : Type := mkModel {
  gridSizeX : Z;
  gridSizeY : Z;
  prerequisites : gmap string (list string);
  learningPaths : gmap string (list string)
}.

Definition _loadPrerequisites : gmap string (list string) :=
  list_to_map [
    ("Logical Equivalence", ["Introduction to Mathematical Logic"]);
    ("Rules of Inference", ["Introduction to Mathematical Logic"; "Logical Equivalence"]);
    ("Resolution", ["Logical Equivalence"; "Rules of Inference"]);
    ("SAT Problem", ["Logical Equivalence"; "Rules of Inference"]);
    ("Tutorial 1: Part I", ["Introduction to Mathematical Logic"; "Logical Equivalence"]);
    ("Tutorial 1: Part II", ["Tutorial 1: Part I"; "Rules of Inference"]);
    ("Predicate Logic", ["Rules of Inference"; "Resolution"]);
    ("Rules of Inferences in Predicate Logic", ["Predicate Logic"]);
    ("Proof Strategies I", ["Rules of Inference"; "Predicate Logic"]);
    ("Proof Strategies II", ["Proof Strategies I"]);
    ("Induction", ["Proof Strategies I"]);
    ("Tutorial 2: Part I", ["Predicate Logic"; "Proof Strategies I"]);
    ("Tutorial 2: Part II", ["Tutorial 2: Part I"; "Induction"]);
    ("Sets", ["Introduction to Mathematical Logic"]);
    ("Relations", ["Sets"]);
    ("Operations on Relations", ["Relations"]);
    ("Functions", ["Relations"; "Sets"]);
    ("Graph Theory Basics", ["Sets"; "Relations"]);
    ("Basic Rules of Counting", ["Sets"]);
    ("Modular Arithmetic", ["Basic Rules of Counting"]);
    ("Group Theory", ["Modular Arithmetic"]);
    ("Applications of Finite Fields", ["Group Theory"])
  ].

Definition basic_logic : list string := [
  "Introduction to Mathematical Logic";
  "Logical Equivalence";
  "Rules of Inference";
  "Tutorial 1: Part I"
].

Definition complete_course : list string := [
  "Introduction to Mathematical Logic";
  "Logical Equivalence";
  "Rules of Inference";
  "Sets";
  "Relations";
  "Functions";
  "Basic Rules of Counting";
  "Graph Theory Basics";
  "Modular Arithmetic";
  "Group Theory"
].

Definition _loadLearningPaths : gmap string (list string) :=
  list_to_map [("basic_logic", basic_logic); ("complete_course", complete_course)].

(** [new EnhancedDQNModel()] *)
Definition dqnModel : EnhancedDQNModel :=
  mkModel 20 20 _loadPrerequisites _loadLearningPaths.

Definition maxSteps : nat := 20.

Section Engine.

Variable extractedData : list (string * RawEntry).
Variable this : EnhancedDQNModel.

Definition checkPrerequisites (resourceName : string) (completedResources : gset string) : bool :=
  let prereqs := default [] (prerequisites this !! resourceName) in
  forallb (fun prereq => bool_decide (prereq ∈ completedResources)) prereqs.

Definition getResourcePositions : list Resource :=
  map (fun entry : string * RawEntry =>
         let (name, data) := entry in
         let x := floor_scaled (x_coordinate data) (gridSizeX this) in
         let y := floor_scaled (y_coordinate data) (gridSizeY this) in
         let boundedX := Z.max 0 (Z.min x (gridSizeX this - 1)) in
         let boundedY := Z.max 0 (Z.min y (gridSizeY this - 1)) in
         mkResource name boundedX boundedY)
      extractedData.

Definition getAvailableResources (completedResources : gset string) : list Resource :=
  List.filter
    (fun resource =>
       negb (bool_decide (res_name resource ∈ completedResources))
       && checkPrerequisites (res_name resource) completedResources)
    getResourcePositions.

(** [None] is the [null] of the source.  The constructor installs
    "complete_course", so the inner default is not reached for [dqnModel]. *)
Definition getNextRecommendedResource (completedResources : gset string) (goal : string)
  : option string :=
  let learningPath :=
    default (default [] (learningPaths this !! "complete_course"))
            (learningPaths this !! goal) in
  match List.find
          (fun resource =>
             negb (bool_decide (resource ∈ completedResources))
             && checkPrerequisites resource completedResources)
          learningPath with
  | Some resource => Some resource
  | None =>
      match getAvailableResources completedResources with
      | resource :: _ => Some (res_name resource)
      | [] => None
      end
  end.

(** The first [if] chain of the loop body: [Some true] is RIGHT (action 1),
    [Some false] is UP (action 0), [None] is the [break]. *)
Definition chooseAction (rnd : nat -> bool) (steps : nat) (current target : Position)
  : option bool :=
  if JS.lt (pos_x current) (pos_x target) && JS.lt (pos_y current) (pos_y target)
  then Some (rnd steps)
  else if JS.lt (pos_x current) (pos_x target) then Some true
  else if JS.lt (pos_y current) (pos_y target) then Some false
  else None.

(** The second [if] chain: the move and its label, or [None] for the [break]. *)
Definition applyAction (right : bool) (current : Position) : option (Position * string) :=
  if negb right && JS.lt (pos_y current) (JS.Num (gridSizeY this - 1))
  then Some (mkPosition (pos_x current) (JS.incr (pos_y current)), "UP")
  else if right && JS.lt (pos_x current) (JS.Num (gridSizeX this - 1))
  then Some (mkPosition (JS.incr (pos_x current)) (pos_y current), "RIGHT")
  else None.

Fixpoint dqn_loop (fuel : nat) (rnd : nat -> bool) (target : Position)
    (steps : nat) (current : Position) (path : list PathStep)
  : option (list PathStep) :=
  if Nat.ltb steps maxSteps
     && (JS.strict_neq (pos_x current) (pos_x target)
         || JS.strict_neq (pos_y current) (pos_y target))
  then
    match fuel with
    | O => None
    | S fuel' =>
        match chooseAction rnd steps current target with
        | None => Some path
        | Some action =>
            match applyAction action current with
            | None => Some path
            | Some (current', actionName) =>
                dqn_loop fuel' rnd target (S steps) current'
                  (path ++ [mkPathStep (pos_x current') (pos_y current')
                              actionName (Some (S steps))])
            end
        end
    end
  else Some path.

Definition generateDQNPath_fuel (fuel : nat) (rnd : nat -> bool) (start target : Position)
  : option (list PathStep) :=
  dqn_loop fuel rnd target 0 start [].

(** [maxSteps] units of fuel always suffice ([generateDQNPath_fuel_total]
    below), so the default is never taken. *)
Definition generateDQNPath (rnd : nat -> bool) (start target : Position) : list PathStep :=
  default [] (generateDQNPath_fuel maxSteps rnd start target).

Definition sentinel (action : string) : list PathStep :=
  [mkPathStep (JS.Num (gridSizeX this - 1)) (JS.Num (gridSizeY this - 1)) action None].

Definition predictPath (rnd : nat -> bool) (currentPos : Position)
    (completedResources : gset string) (goal : string) : list PathStep :=
  let resources := getResourcePositions in
  match getAvailableResources completedResources with
  | [] => sentinel "goal_reached"
  | _ :: _ =>
      match getNextRecommendedResource completedResources goal with
      | None => sentinel "path_complete"
      | Some nextResource =>
          if JS.falsy nextResource then sentinel "path_complete"
          else
            match List.find (fun r => String.eqb (res_name r) nextResource) resources with
            | None => sentinel "resource_not_found"
            | Some targetResource =>
                generateDQNPath rnd currentPos (position_of targetResource)
            end
      end
  end.

End Engine.

(** *** The progress store and the routes that touch it *)

(** an entry pushed on [pathHistory] by [/api/suggest-path] *)
Record PathHistory : Type := mkPathHistory {
  ph_path : list PathStep;
  ph_fromPosition : Position;
  ph_goal : string
}.

Record LearnerProgress : Type := mkProgress {
  completedResources : gset string;
  currentPosition : Position;
  totalResources : nat;
  score : Z;
  pathHistory : list PathHistory;
  currentGoal : string;
  sessionStartTime : Z;
  achievements : list string
}.

(** [includes] on an array of strings *)
Definition includes (name : string) (l : list string) : bool :=
  existsb (String.eqb name) l.

(** request bodies: a missing (or falsy) field is [None] *)
Record CompleteBody : Type := mkCompleteBody {
  body_resourceName : option string;
  body_position : option Position
}.

Record SuggestBody : Type := mkSuggestBody {
  body_currentPosition : option Position;
  body_goal : option string
}.

Inductive CompleteResponse : Type :=
| NameRequired
| PrerequisitesNotMet (prereqs : list string)
| Completed (completed total : nat) (newScore : Z) (unlocked : list string)
    (nextAvailable : list Resource).

Record SuggestResponse : Type := mkSuggestResponse {
  suggestedPath : list PathStep;
  resp_goal : string;
  nextResource : option string;
  availableResources : nat
}.

Inductive SetGoalResponse : Type :=
| InvalidGoal (availableGoals : gset string)
| GoalSet (goal : string) (learningPath : list string).


(** an element of the [achievements] array of [/api/learner-progress] *)
Record AchievementView : Type := mkAchievementView {
  ach_name : string;
  ach_unlocked : bool
}.

(** the answer of [/api/learner-progress], without [progressPercentage] and
    [sessionTime] *)
Record ProgressResponse : Type := mkProgressResponse {
  pr_completedResources : gset string;
  pr_totalResources : nat;
  pr_currentPosition : Position;
  pr_score : Z;
  pr_pathHistory : list PathHistory;
  pr_currentGoal : string;
  pr_availableResources : nat;
  pr_achievements : list AchievementView
}.

(** [l.slice(-n)] *)
Definition slice_last {A : Type} (n : nat) (l : list A) : list A :=
  drop (length l - n) l.

Section Routes.

Variable extractedData : list (string * RawEntry).
Variable this : EnhancedDQNModel.

(** the object literal assigned to [learnerProgress] at start-up and by
    [/api/reset-progress]; [now] is [Date.now()] *)
Definition freshProgress (now : Z) : LearnerProgress :=
  mkProgress ∅ (mkPosition (JS.Num 0) (JS.Num 0)) (length extractedData) 0 []
             "complete_course" now [].

Definition checkAchievements (learnerProgress : LearnerProgress) : LearnerProgress :=
  let completed := size (completedResources learnerProgress) in
  let unlocked := achievements learnerProgress in
  let newAchievements : list string := [] in
  let newAchievements :=
    if Nat.leb 1 completed && negb (includes "First Steps" unlocked)
    then (newAchievements ++ ["First Steps"])%list else newAchievements in
  let newAchievements :=
    if Nat.leb 5 completed && negb (includes "Getting Started" unlocked)
    then (newAchievements ++ ["Getting Started"])%list else newAchievements in
  let newAchievements :=
    if Nat.leb 10 completed && negb (includes "Making Progress" unlocked)
    then (newAchievements ++ ["Making Progress"])%list else newAchievements in
  let newAchievements :=
    if Nat.leb 20 completed && negb (includes "Dedicated Learner" unlocked)
    then (newAchievements ++ ["Dedicated Learner"])%list else newAchievements in
  let newAchievements :=
    if Nat.leb 50 completed && negb (includes "Expert" unlocked)
    then (newAchievements ++ ["Expert"])%list else newAchievements in
  mkProgress (completedResources learnerProgress) (currentPosition learnerProgress)
    (totalResources learnerProgress) (score learnerProgress)
    (pathHistory learnerProgress) (currentGoal learnerProgress)
    (sessionStartTime learnerProgress) (unlocked ++ newAchievements)%list.


(** [POST /api/complete] *)
Definition api_complete (body : CompleteBody) (learnerProgress : LearnerProgress)
  : CompleteResponse * LearnerProgress :=
  match body_resourceName body with
  | None => (NameRequired, learnerProgress)
  | Some resourceName =>
      if JS.falsy resourceName then (NameRequired, learnerProgress)
      else if negb (checkPrerequisites this resourceName
                      (completedResources learnerProgress))
      then (PrerequisitesNotMet (default [] (prerequisites this !! resourceName)),
            learnerProgress)
      else
        let added :=
          mkProgress ({[resourceName]} ∪ completedResources learnerProgress)
            (default (currentPosition learnerProgress) (body_position body))
            (totalResources learnerProgress)
            (score learnerProgress + 10)
            (pathHistory learnerProgress) (currentGoal learnerProgress)
            (sessionStartTime learnerProgress) (achievements learnerProgress) in
        let learnerProgress' := checkAchievements added in
        (Completed (size (completedResources learnerProgress'))
           (totalResources learnerProgress') (score learnerProgress')
           (achievements learnerProgress')
           (take 3 (getAvailableResources extractedData this
                      (completedResources learnerProgress'))),
         learnerProgress')
  end.

(** [goal || learnerProgress.currentGoal]: an empty string is falsy *)
Definition goal_or (goal : option string) (current : string) : string :=
  match goal with
  | Some g => if JS.falsy g then current else g
  | None => current
  end.

(** [POST /api/suggest-path] *)
Definition api_suggest_path (rnd : nat -> bool) (body : SuggestBody)
    (learnerProgress : LearnerProgress) : SuggestResponse * LearnerProgress :=
  let currentPos := default (currentPosition learnerProgress) (body_currentPosition body) in
  let learningGoal := goal_or (body_goal body) (currentGoal learnerProgress) in
  let path :=
    predictPath extractedData this rnd currentPos
      (completedResources learnerProgress) learningGoal in
  (mkSuggestResponse path learningGoal
     (getNextRecommendedResource extractedData this
        (completedResources learnerProgress) learningGoal)
     (length (getAvailableResources extractedData this
                (completedResources learnerProgress))),
   mkProgress (completedResources learnerProgress) (currentPosition learnerProgress)
     (totalResources learnerProgress) (score learnerProgress)
     (pathHistory learnerProgress ++ [mkPathHistory path currentPos learningGoal])%list
     (currentGoal learnerProgress) (sessionStartTime learnerProgress)
     (achievements learnerProgress)).

(** [POST /api/set-goal] *)
Definition api_set_goal (goal : option string) (learnerProgress : LearnerProgress)
  : SetGoalResponse * LearnerProgress :=
  match goal with
  | None => (InvalidGoal (dom (learningPaths this)), learnerProgress)
  | Some g =>
      match (if JS.falsy g then None else learningPaths this !! g) with
      | None => (InvalidGoal (dom (learningPaths this)), learnerProgress)
      | Some learningPath =>
          (GoalSet g learningPath,
           mkProgress (completedResources learnerProgress)
             (currentPosition learnerProgress) (totalResources learnerProgress)
             (score learnerProgress) (pathHistory learnerProgress) g
             (sessionStartTime learnerProgress) (achievements learnerProgress))
      end
  end.

(** [POST /api/reset-progress] *)
Definition api_reset_progress (now : Z) (learnerProgress : LearnerProgress)
  : LearnerProgress :=
  freshProgress now.

(** [GET /api/available-resources] *)
Definition api_available_resources (learnerProgress : LearnerProgress)
  : (list Resource * nat) * LearnerProgress :=
  let availableResources :=
    getAvailableResources extractedData this (completedResources learnerProgress) in
  ((availableResources, length availableResources), learnerProgress).

(** [GET /api/learner-progress] *)
Definition api_learner_progress (learnerProgress : LearnerProgress)
  : ProgressResponse * LearnerProgress :=
  let completed := size (completedResources learnerProgress) in
  (mkProgressResponse
     (completedResources learnerProgress)
     (totalResources learnerProgress)
     (currentPosition learnerProgress)
     (score learnerProgress)
     (slice_last 5 (pathHistory learnerProgress))
     (currentGoal learnerProgress)
     (length (getAvailableResources extractedData this
                (completedResources learnerProgress)))
     (map (fun name => mkAchievementView name true) (achievements learnerProgress)
      ++ List.filter
           (fun a => negb (includes (ach_name a) (achievements learnerProgress)))
           [mkAchievementView "First Steps" (Nat.leb 1 completed);
            mkAchievementView "Getting Started" (Nat.leb 5 completed);
            mkAchievementView "Making Progress" (Nat.leb 10 completed);
            mkAchievementView "Dedicated Learner" (Nat.leb 20 completed);
            mkAchievementView "Expert" (Nat.leb 50 completed)]),
   learnerProgress).

(** *** Runs of the server: the requests that write [learnerProgress] *)

Inductive Request : Type :=
| Complete (body : CompleteBody)
| SuggestPath (rnd : nat -> bool) (body : SuggestBody)
| SetGoal (goal : option string)
| ResetProgress (now : Z).

Definition handle (learnerProgress : LearnerProgress) (req : Request) : LearnerProgress :=
  match req with
  | Complete body => snd (api_complete body learnerProgress)
  | SuggestPath rnd body => snd (api_suggest_path rnd body learnerProgress)
  | SetGoal goal => snd (api_set_goal goal learnerProgress)
  | ResetProgress now => api_reset_progress now learnerProgress
  end.

Definition run (reqs : list Request) (learnerProgress : LearnerProgress) : LearnerProgress :=
  fold_left handle reqs learnerProgress.

Definition is_reset (req : Request) : bool :=
  match req with
  | ResetProgress _ => true
  | _ => false
  end.

End Routes.

End Enhanced.

(** ** The first server, [backend/server.js] *)

Module Mock.

Record MockDQNModel : Type := mkModel {
  gridSizeX : Z;
  gridSizeY : Z
}.

(** [new MockDQNModel()] *)
Definition dqnModel : MockDQNModel := mkModel 20 20.

Record PathHistory : Type := mkPathHistory {
  ph_path : list PathStep;
  ph_fromPosition : Position
}.

Record LearnerProgress : Type := mkProgress {
  completedResources : gset string;
  currentPosition : Position;
  totalResources : nat;
  score : Z;
  pathHistory : list PathHistory
}.

Record CompleteBody : Type := mkCompleteBody {
  body_resourceName : option string;
  body_position : option Position
}.

Inductive CompleteResponse : Type :=
| NameRequired
| Completed (completed total : nat) (newScore : Z).

Section Engine.

Variable extractedData : list (string * RawEntry).

Definition SCALE : Z := 100.

(** [Math.min(...l)] on the non-empty array [a :: l] *)
Definition min_of (a : Z) (l : list Z) : Z := fold_left Z.min l a.

Definition getResourcePositions : list Resource :=
  let resources :=
    map (fun entry : string * RawEntry =>
           let (name, data) := entry in
           mkResource name (floor_scaled (x_coordinate data) SCALE)
                           (floor_scaled (y_coordinate data) SCALE))
        extractedData in
  match resources with
  | [] => resources
  | r :: rest =>
      let minX := min_of (res_x r) (map res_x rest) in
      let minY := min_of (res_y r) (map res_y rest) in
      map (fun r => mkResource (res_name r) (res_x r - minX) (res_y r - minY)) resources
  end.

(** The [if] chain of the loop body of [generatePathTo]: the position and
    the path after it. *)
Definition stepTowards (target current : Position) (path : list PathStep)
  : Position * list PathStep :=
  if JS.lt (pos_x current) (pos_x target) then
    let current' := mkPosition (JS.incr (pos_x current)) (pos_y current) in
    (current', path ++ [mkPathStep (pos_x current') (pos_y current') "right" None])
  else if JS.gt (pos_x current) (pos_x target) then
    let current' := mkPosition (JS.decr (pos_x current)) (pos_y current) in
    (current', path ++ [mkPathStep (pos_x current') (pos_y current') "left" None])
  else if JS.lt (pos_y current) (pos_y target) then
    let current' := mkPosition (pos_x current) (JS.incr (pos_y current)) in
    (current', path ++ [mkPathStep (pos_x current') (pos_y current') "up" None])
  else if JS.gt (pos_y current) (pos_y target) then
    let current' := mkPosition (pos_x current) (JS.decr (pos_y current)) in
    (current', path ++ [mkPathStep (pos_x current') (pos_y current') "down" None])
  else (current, path).

Fixpoint path_loop (fuel : nat) (target current : Position) (path : list PathStep)
  : option (list PathStep) :=
  if JS.strict_neq (pos_x current) (pos_x target)
     || JS.strict_neq (pos_y current) (pos_y target)
  then
    match fuel with
    | O => None
    | S fuel' =>
        let (current', path') := stepTowards target current path in
        if Nat.ltb 50 (length path') then Some path'
        else path_loop fuel' target current' path'
    end
  else Some path.

(** [generatePathTo(start, target)] run for at most [fuel] iterations of
    its [while] loop; [None] when the loop has not exited by then. *)
Definition generatePathTo (fuel : nat) (start target : Position) : option (list PathStep) :=
  path_loop fuel target start [].

(** [Math.abs(pos1.x - pos2.x) + Math.abs(pos1.y - pos2.y)] *)
Definition calculateDistance (pos1 pos2 : Position) : JS.value :=
  JS.add (JS.abs (JS.sub (pos_x pos1) (pos_x pos2)))
         (JS.abs (JS.sub (pos_y pos1) (pos_y pos2))).

(** the [forEach] of [predictPath]: [nearest] and [minDistance] after it,
    from their initial values for [unvisited[0]] *)
Definition nearestOf (currentPos : Position) (first : Resource) (unvisited : list Resource)
  : Resource * JS.value :=
  fold_left
    (fun (state : Resource * JS.value) (resource : Resource) =>
       let (nearest, minDistance) := state in
       let distance := calculateDistance currentPos (position_of resource) in
       if JS.lt distance minDistance then (resource, distance)
       else (nearest, minDistance))
    unvisited
    (first, calculateDistance currentPos (position_of first)).

(** [predictPath(currentPos, completedResources)], its call of
    [generatePathTo] run with [fuel] *)
Definition predictPath (this : MockDQNModel) (fuel : nat) (currentPos : Position)
    (completedResources : gset string) : option (list PathStep) :=
  let resources := getResourcePositions in
  let unvisited :=
    List.filter (fun r => negb (bool_decide (res_name r ∈ completedResources)))
                resources in
  match unvisited with
  | [] => Some [mkPathStep (JS.Num (gridSizeX this - 1)) (JS.Num (gridSizeY this - 1))
                  "goal" None]
  | first :: _ =>
      generatePathTo fuel currentPos
        (position_of (fst (nearestOf currentPos first unvisited)))
  end.

Definition freshProgress : LearnerProgress :=
  mkProgress ∅ (mkPosition (JS.Num 0) (JS.Num 0)) (length extractedData) 0 [].

(** [POST /api/complete] *)
Definition api_complete (body : CompleteBody) (learnerProgress : LearnerProgress)
  : CompleteResponse * LearnerProgress :=
  match body_resourceName body with
  | None => (NameRequired, learnerProgress)
  | Some resourceName =>
      if JS.falsy resourceName then (NameRequired, learnerProgress)
      else
        let learnerProgress' :=
          mkProgress ({[resourceName]} ∪ completedResources learnerProgress)
            (default (currentPosition learnerProgress) (body_position body))
            (totalResources learnerProgress)
            (score learnerProgress + 10)
            (pathHistory learnerProgress) in
        (Completed (size (completedResources learnerProgress'))
           (totalResources learnerProgress') (score learnerProgress'),
         learnerProgress')
  end.

(** [POST /api/reset-progress] *)
Definition api_reset_progress (learnerProgress : LearnerProgress) : LearnerProgress :=
  freshProgress.

End Engine.

End Mock.

Import Enhanced.

(** ** Notions of the specification *)

(** [p] is listed as a prerequisite of [r] in the prerequisite map. *)
Definition is_prerequisite (this : EnhancedDQNModel) (p r : string) : Prop :=
  ∃ ps : list string, prerequisites this !! r = Some ps ∧ p ∈ ps.

(** every prerequisite of [r] is completed *)
Definition prerequisites_met (this : EnhancedDQNModel) (r : string) (C : gset string) : Prop :=
  ∀ p, is_prerequisite this p r → p ∈ C.

(** not completed, and available *)
Definition recommendable (this : EnhancedDQNModel) (C : gset string) (r : string) : Prop :=
  (r ∉ C) ∧ prerequisites_met this r C.



(** the catalog in iteration order *)
Definition catalog_names (extractedData : list (string * RawEntry)) : list string :=
  map fst extractedData.

(** the prerequisites of [r] that are not in [C] *)
Definition missing_prerequisites (this : EnhancedDQNModel) (r : string) (C : gset string)
  : list string :=
  List.filter (fun p => negb (bool_decide (p ∈ C)))
              (default [] (prerequisites this !! r)).

(** a cell of the grid *)
Definition in_grid (gx gy : Z) (p : Position) : Prop :=
  ∃ a b : Z, p = mkPosition (JS.Num a) (JS.Num b) ∧ 0 ≤ a ≤ gx - 1 ∧ 0 ≤ b ≤ gy - 1.

Definition cell_of (s : PathStep) : Position := mkPosition (step_x s) (step_y s).

(** [s] moves from [from] by one unit along exactly one axis, an axis on
    which [from] still differs from [target], and lands inside the grid. *)
Definition unit_move (gx gy : Z) (target from : Position) (s : PathStep) : Prop :=
  ∃ a b ta tb : Z,
    from = mkPosition (JS.Num a) (JS.Num b) ∧
    target = mkPosition (JS.Num ta) (JS.Num tb) ∧
    in_grid gx gy (cell_of s) ∧
    ((a ≠ ta ∧ (cell_of s = mkPosition (JS.Num (a + 1)) (JS.Num b)
                ∨ cell_of s = mkPosition (JS.Num (a - 1)) (JS.Num b)))
     ∨ (b ≠ tb ∧ (cell_of s = mkPosition (JS.Num a) (JS.Num (b + 1))
                  ∨ cell_of s = mkPosition (JS.Num a) (JS.Num (b - 1))))).

(** every step of [path], walked from [from], is a [unit_move] *)
Fixpoint unit_moves (gx gy : Z) (target from : Position) (path : list PathStep) : Prop :=
  match path with
  | [] => True
  | s :: rest => unit_move gx gy target from s ∧ unit_moves gx gy target (cell_of s) rest
  end.

(** the five milestones of [checkAchievements] *)
Definition thresholds : list (string * nat) :=
  [("First Steps", 1%nat); ("Getting Started", 5%nat); ("Making Progress", 10%nat);
   ("Dedicated Learner", 20%nat); ("Expert", 50%nat)].

(** the store of [/api/complete] after its three assignments and before
    the call of [checkAchievements] *)
Definition addCompleted (R : string) (pos : option Position) (lp : LearnerProgress)
  : LearnerProgress :=
  mkProgress ({[R]} ∪ completedResources lp) (default (currentPosition lp) pos)
    (totalResources lp) (score lp + 10) (pathHistory lp) (currentGoal lp)
    (sessionStartTime lp) (achievements lp).

(** the request was answered with [success: true] *)
Definition succeeded (resp : CompleteResponse) : Prop :=
  match resp with
  | Completed _ _ _ _ _ => True
  | _ => False
  end.

Definition mock_succeeded (resp : Mock.CompleteResponse) : Prop :=
  match resp with
  | Mock.Completed _ _ _ => True
  | _ => False
  end.

(** every completed name is non-empty and has its prerequisites completed *)
Definition prerequisite_closed (this : EnhancedDQNModel) (lp : LearnerProgress) : Prop :=
  ∀ R, R ∈ completedResources lp →
       R ≠ "" ∧ checkPrerequisites this R (completedResources lp) = true.


(** the test of the [if] of [checkAchievements] for one milestone *)
Definition unlocks_now (lp : LearnerProgress) (milestone : string * nat) : bool :=
  Nat.leb (snd milestone) (size (completedResources lp))
  && negb (includes (fst milestone) (achievements lp)).

(** The list of achievements has no repetition, and holds the name of a
    milestone exactly when the completed count has reached its threshold. *)
Definition achievements_consistent (lp : LearnerProgress) : Prop :=
  NoDup (achievements lp)
  ∧ ∀ name n, (name, n) ∈ thresholds →
              (name ∈ achievements lp ↔ (n ≤ size (completedResources lp))%nat).

(** the five milestones as [/api/learner-progress] shows them for a
    completed count *)
Definition milestone_views (completed : nat) : list AchievementView :=
  map (fun m : string * nat => mkAchievementView (fst m) (Nat.leb (snd m) completed))
      thresholds.

(** the names of the milestones reached at a completed count *)
Definition milestones_reached (completed : nat) : list string :=
  map fst (List.filter (fun m : string * nat => Nat.leb (snd m) completed) thresholds).

(** the names of the prerequisite map, every one after its prerequisites *)
Definition course_order : list string := [
  "Introduction to Mathematical Logic"; "Logical Equivalence"; "Rules of Inference";
  "Resolution"; "SAT Problem"; "Tutorial 1: Part I"; "Tutorial 1: Part II";
  "Predicate Logic"; "Rules of Inferences in Predicate Logic"; "Proof Strategies I";
  "Proof Strategies II"; "Induction"; "Tutorial 2: Part I"; "Tutorial 2: Part II";
  "Sets"; "Relations"; "Operations on Relations"; "Functions"; "Graph Theory Basics";
  "Basic Rules of Counting"; "Modular Arithmetic"; "Group Theory";
  "Applications of Finite Fields"
].

(** the place of a name in a list (its length when absent) *)
Fixpoint index_of (x : string) (l : list string) : nat :=
  match l with
  | [] => O
  | y :: l' => if String.eqb x y then O else S (index_of x l')
  end.

Definition course_rank (r : string) : nat := index_of r course_order.

(** Manhattan distance between two integer cells *)
Definition manhattan (a b ta tb : Z) : nat := Z.to_nat (Z.abs (ta - a) + Z.abs (tb - b)).






(** a store of the prerequisite-aware server seen as a store of the first
    server: the goal, the session start and the achievements are dropped *)
Definition mock_view (lp : LearnerProgress) : Mock.LearnerProgress :=
  Mock.mkProgress (completedResources lp) (currentPosition lp) (totalResources lp)
    (score lp)
    (map (fun h => Mock.mkPathHistory (ph_path h) (ph_fromPosition h)) (pathHistory lp)).

(** the same body sent to the first server *)
Definition mock_body (body : CompleteBody) : Mock.CompleteBody :=
  Mock.mkCompleteBody (body_resourceName body) (body_position body).

(** the store after a series of [POST /api/complete], on each server *)
Definition complete_each (extractedData : list (string * RawEntry)) (this : EnhancedDQNModel)
    (bodies : list CompleteBody) (lp : LearnerProgress) : LearnerProgress :=
  fold_left (fun lp body => snd (api_complete extractedData this body lp)) bodies lp.

Definition mock_complete_each (bodies : list CompleteBody) (lp : Mock.LearnerProgress)
  : Mock.LearnerProgress :=
  fold_left (fun lp body => snd (Mock.api_complete (mock_body body) lp)) bodies lp.

(** ** Availability *)

Section Availability.

Variable extractedData : list (string * RawEntry).
Variable this : EnhancedDQNModel.

Lemma checkPrerequisites_met (r : string) (C : gset string) :
  checkPrerequisites this r C = true ↔ prerequisites_met this r C.
Proof.
  unfold checkPrerequisites, prerequisites_met, is_prerequisite.
  rewrite forallb_forall. split.
  - intros Hall p (ps & Hps & Hp). rewrite Hps in Hall. simpl in Hall.
    eapply bool_decide_eq_true_1. apply Hall. by apply list_elem_of_In.
  - intros Hmet p Hp. apply bool_decide_eq_true_2.
    destruct (prerequisites this !! r) as [ps|] eqn:Hps; simpl in Hp.
    + apply Hmet. exists ps. split; [done|]. by apply list_elem_of_In.
    + destruct Hp.
Qed.

Lemma checkPrerequisites_mono (r : string) (C D : gset string) :
  C ⊆ D → checkPrerequisites this r C = true → checkPrerequisites this r D = true.
Proof.
  rewrite !checkPrerequisites_met. intros Hsub Hmet p Hp. apply Hsub. by apply Hmet.
Qed.

Lemma recommendable_test (C : gset string) (r : string) :
  negb (bool_decide (r ∈ C)) && checkPrerequisites this r C = true
  ↔ recommendable this C r.
Proof.
  unfold recommendable. rewrite andb_true_iff, negb_true_iff, bool_decide_eq_false.
  by rewrite checkPrerequisites_met.
Qed.

End Availability.



(** ** Recommendation *)

Section FirstSuch.

Context {A : Type}.


Lemma find_none (f : A → bool) (l : list A) :
  (∀ y, y ∈ l → f y ≠ true) → List.find f l = None.
Proof.
  induction l as [|y l IH]; simpl; [done|]. intros Hnone.
  destruct (f y) eqn:Hy.
  - exfalso. apply (Hnone y); [left | done].
  - apply IH. intros z Hz. apply Hnone. by right.
Qed.





End FirstSuch.

Section Recommendation.

Variable extractedData : list (string * RawEntry).
Variable this : EnhancedDQNModel.

Lemma getResourcePositions_names :
  map res_name (getResourcePositions extractedData this) = catalog_names extractedData.
Proof.
  unfold getResourcePositions, catalog_names. rewrite map_map.
  apply map_ext. by intros [name data].
Qed.


End Recommendation.



(** ** Completion *)

Section Completion.

Variable extractedData : list (string * RawEntry).
Variable this : EnhancedDQNModel.

Lemma falsy_false (R : string) : R ≠ "" → JS.falsy R = false.
Proof. intros H. unfold JS.falsy. by apply String.eqb_neq. Qed.

Lemma checkAchievements_frame (lp : LearnerProgress) :
  completedResources (checkAchievements lp) = completedResources lp
  ∧ currentPosition (checkAchievements lp) = currentPosition lp
  ∧ totalResources (checkAchievements lp) = totalResources lp
  ∧ score (checkAchievements lp) = score lp
  ∧ pathHistory (checkAchievements lp) = pathHistory lp
  ∧ currentGoal (checkAchievements lp) = currentGoal lp.
Proof. done. Qed.

Lemma api_complete_rejected (R : string) (pos : option Position) (lp : LearnerProgress) :
  R ≠ "" →
  checkPrerequisites this R (completedResources lp) = false →
  api_complete extractedData this (mkCompleteBody (Some R) pos) lp
  = (PrerequisitesNotMet (default [] (prerequisites this !! R)), lp).
Proof.
  intros HR Hcheck. unfold api_complete. simpl.
  by rewrite (falsy_false R HR), Hcheck.
Qed.

Lemma api_complete_accepted (R : string) (pos : option Position) (lp : LearnerProgress) :
  R ≠ "" →
  checkPrerequisites this R (completedResources lp) = true →
  succeeded (fst (api_complete extractedData this (mkCompleteBody (Some R) pos) lp))
  ∧ snd (api_complete extractedData this (mkCompleteBody (Some R) pos) lp)
    = checkAchievements (addCompleted R pos lp).
Proof.
  intros HR Hcheck. unfold api_complete. simpl.
  by rewrite (falsy_false R HR), Hcheck.
Qed.

(** a successful answer comes from the last branch of the route *)
Lemma api_complete_succeeded_inv (body : CompleteBody) (lp : LearnerProgress) :
  succeeded (fst (api_complete extractedData this body lp)) →
  ∃ R, body_resourceName body = Some R ∧ R ≠ ""
       ∧ checkPrerequisites this R (completedResources lp) = true
       ∧ snd (api_complete extractedData this body lp)
         = checkAchievements (addCompleted R (body_position body) lp).
Proof.
  unfold api_complete. destruct body as [[R|] pos]; simpl; [|done].
  destruct (JS.falsy R) eqn:HR; simpl; [done|].
  destruct (checkPrerequisites this R (completedResources lp)) eqn:Hc; simpl; [|done].
  intros _. exists R. split; [done|]. split; [|done].
  intros ->. discriminate.
Qed.


End Completion.

(** C1 (amended).  When some listed prerequisite of a non-empty resource
    name is not in the completed set, [/api/complete] answers
    [Prerequisites not met], hands the progress store back unchanged, and
    the answer carries the whole prerequisite list of the resource, hence
    every missing prerequisite. *)
Theorem markCompleted_rejects_missing_prerequisite
    (extractedData : list (string * RawEntry)) (this : EnhancedDQNModel)
    (R : string) (pos : option Position) (lp : LearnerProgress) :
  R ≠ "" →
  (∃ p, is_prerequisite this p R ∧ p ∉ completedResources lp) →
  ∃ ps : list string,
    prerequisites this !! R = Some ps
    ∧ api_complete extractedData this (mkCompleteBody (Some R) pos) lp
      = (PrerequisitesNotMet ps, lp)
    ∧ (∀ p, p ∈ missing_prerequisites this R (completedResources lp) → p ∈ ps).
Proof.
  intros HR (p & (ps & Hps & Hp) & Hmissing). exists ps. split; [done|]. split.
  - rewrite api_complete_rejected; [by rewrite Hps|done|].
    apply not_true_is_false. intros Hcheck.
    apply checkPrerequisites_met in Hcheck. apply Hmissing, Hcheck. by exists ps.
  - intros q. unfold missing_prerequisites. rewrite Hps. simpl.
    rewrite !list_elem_of_In, filter_In. by intros [Hq _].
Qed.

(** the prerequisite map of the example: B requires A *)
Lemma markCompleted_B_requires_A_witness :
  let model := Enhanced.mkModel 20 20 {["B" := ["A"]]} _loadLearningPaths in
  completedResources (freshProgress [] 0) = ∅
  ∧ api_complete [] model (mkCompleteBody (Some "B") None) (freshProgress [] 0)
    = (PrerequisitesNotMet ["A"], freshProgress [] 0).
Proof.
  intros model. split; [reflexivity|].
  destruct (markCompleted_rejects_missing_prerequisite [] model "B" None
              (freshProgress [] 0)) as (ps & Hps & Hresp & _).
  - discriminate.
  - exists "A". split.
    + exists ["A"]. split; [reflexivity | by left].
    + apply not_elem_of_empty.
  - vm_compute in Hps. injection Hps as <-. exact Hresp.
Defined.

(** C1 as stated fails: once "Introduction to Mathematical Logic" is
    completed, "Rules of Inference" is rejected with both of its
    prerequisites, although only "Logical Equivalence" is missing. *)
Lemma markCompleted_rejection_lists_completed_prerequisite :
  let lp :=
    snd (api_complete [] dqnModel
           (mkCompleteBody (Some "Introduction to Mathematical Logic") None)
           (freshProgress [] 0)) in
  ∃ named : list string,
    api_complete [] dqnModel (mkCompleteBody (Some "Rules of Inference") None) lp
    = (PrerequisitesNotMet named, lp)
    ∧ "Introduction to Mathematical Logic" ∈ named
    ∧ "Introduction to Mathematical Logic" ∈ completedResources lp
    ∧ missing_prerequisites dqnModel "Rules of Inference" (completedResources lp)
      = ["Logical Equivalence"]
    ∧ named ≠ missing_prerequisites dqnModel "Rules of Inference" (completedResources lp).
Proof.
  intros lp.
  exists ["Introduction to Mathematical Logic"; "Logical Equivalence"].
  split; [vm_compute; reflexivity|]. split; [by left|].
  split; [apply elem_of_union_l; by apply elem_of_singleton|].
  split; [vm_compute; reflexivity|].
  vm_compute. discriminate.
Qed.

(** ** Runs of the server *)

Section Runs.

Variable extractedData : list (string * RawEntry).
Variable this : EnhancedDQNModel.

Local Abbreviation handle := (handle extractedData this).
Local Abbreviation run := (run extractedData this).
Local Abbreviation freshProgress := (freshProgress extractedData).

Lemma run_snoc (reqs : list Request) (req : Request) (lp : LearnerProgress) :
  run (reqs ++ [req]) lp = handle (run reqs lp) req.
Proof. unfold Enhanced.run. by rewrite fold_left_app. Qed.

(** What a request can do to the completed set, the score, the total and
    the achievements: nothing, a completion, or a reset. *)
Lemma handle_cases (lp : LearnerProgress) (req : Request) :
  (is_reset req = false
   ∧ completedResources (handle lp req) = completedResources lp
   ∧ achievements (handle lp req) = achievements lp
   ∧ score (handle lp req) = score lp
   ∧ totalResources (handle lp req) = totalResources lp)
  ∨ (is_reset req = false
     ∧ ∃ R pos, R ≠ "" ∧ checkPrerequisites this R (completedResources lp) = true
                ∧ handle lp req = checkAchievements (addCompleted R pos lp))
  ∨ (∃ now, req = ResetProgress now ∧ handle lp req = freshProgress now).
Proof.
  destruct req as [body | rnd body | goal | now]; simpl.
  - unfold api_complete. destruct body as [[R|] pos]; simpl; [|by left].
    destruct (JS.falsy R) eqn:HR; simpl; [by left|].
    destruct (checkPrerequisites this R (completedResources lp)) eqn:Hc; simpl;
      [|by left].
    right; left. split; [done|]. exists R, pos. split; [|done].
    intros ->. discriminate.
  - by left.
  - left. unfold api_set_goal. destruct goal as [g|]; [|done].
    destruct (JS.falsy g); [done|]. by destruct (learningPaths this !! g).
  - right; right. by exists now.
Qed.

Lemma reachable_prerequisite_closed (reqs : list Request) (now : Z) :
  prerequisite_closed this (run reqs (freshProgress now)).
Proof.
  induction reqs as [|req reqs IH] using rev_ind.
  - intros R HR. by apply not_elem_of_empty in HR.
  - rewrite run_snoc.
    destruct (handle_cases (run reqs (freshProgress now)) req)
      as [(_ & Hc & _) | [(_ & R' & pos & HR' & Hcheck & ->) | (now' & _ & ->)]].
    + intros R. rewrite Hc. apply IH.
    + intros R HR. simpl in *.
      assert (Hsub : completedResources (run reqs (freshProgress now))
                     ⊆ {[R']} ∪ completedResources (run reqs (freshProgress now)))
        by apply union_subseteq_r.
      apply elem_of_union in HR as [HR | HR].
      * apply elem_of_singleton in HR. subst R. split; [done|].
        by eapply checkPrerequisites_mono.
      * destruct (IH R HR) as [Hne Hc]. split; [done|].
        by eapply checkPrerequisites_mono.
    + intros R HR. by apply not_elem_of_empty in HR.
Qed.


End Runs.

(** C6.  A successful [/api/complete] for [R] adds [R] to the completed set
    and adds exactly 10 to the score.  For a name that is already completed,
    in any store the server can reach, the request succeeds again, leaves
    the completed set as it is, and still adds 10 to the score.  Both
    servers behave so. *)
Theorem markCompleted_adds_resource_and_ten_points
    (extractedData : list (string * RawEntry)) (this : EnhancedDQNModel) :
  (∀ (body : CompleteBody) (lp : LearnerProgress),
     let result := api_complete extractedData this body lp in
     succeeded (fst result) →
     ∃ R, body_resourceName body = Some R
          ∧ R ∈ completedResources (snd result)
          ∧ completedResources (snd result) = {[R]} ∪ completedResources lp
          ∧ score (snd result) = score lp + 10)
  ∧ (∀ (reqs : list Request) (now : Z) (R : string) (pos : option Position),
       let lp := run extractedData this reqs (freshProgress extractedData now) in
       let result := api_complete extractedData this (mkCompleteBody (Some R) pos) lp in
       R ∈ completedResources lp →
       succeeded (fst result)
       ∧ completedResources (snd result) = completedResources lp
       ∧ score (snd result) = score lp + 10)
  ∧ (∀ (body : Mock.CompleteBody) (lp : Mock.LearnerProgress),
       let result := Mock.api_complete body lp in
       mock_succeeded (fst result) →
       ∃ R, Mock.body_resourceName body = Some R
            ∧ R ∈ Mock.completedResources (snd result)
            ∧ Mock.completedResources (snd result) = {[R]} ∪ Mock.completedResources lp
            ∧ Mock.score (snd result) = Mock.score lp + 10)
  ∧ (∀ (R : string) (pos : option Position) (lp : Mock.LearnerProgress),
       let result := Mock.api_complete (Mock.mkCompleteBody (Some R) pos) lp in
       R ≠ "" → R ∈ Mock.completedResources lp →
       mock_succeeded (fst result)
       ∧ Mock.completedResources (snd result) = Mock.completedResources lp
       ∧ Mock.score (snd result) = Mock.score lp + 10).
Proof.
  split; [|split; [|split]].
  - intros body lp result Hok. subst result.
    apply api_complete_succeeded_inv in Hok as (R & HR & _ & _ & ->).
    exists R. split; [done|]. simpl. split; [|done].
    apply elem_of_union_l. by apply elem_of_singleton.
  - intros reqs now R pos lp result HR. subst result.
    destruct (reachable_prerequisite_closed extractedData this reqs now R HR)
      as [Hne Hcheck].
    destruct (api_complete_accepted extractedData this R pos lp Hne Hcheck)
      as [Hok ->].
    split; [done|]. simpl. split; [|done].
    apply leibniz_equiv. apply subseteq_union_1. by apply singleton_subseteq_l.
  - intros body lp. unfold Mock.api_complete.
    destruct body as [[R|] pos]; simpl; [|done].
    destruct (JS.falsy R); simpl; [done|]. intros _.
    exists R. split; [done|]. split; [|done].
    apply elem_of_union_l. by apply elem_of_singleton.
  - intros R pos lp result Hne HR. subst result. unfold Mock.api_complete. simpl.
    rewrite (falsy_false R Hne). simpl. split; [done|]. split; [|done].
    apply leibniz_equiv. apply subseteq_union_1. by apply singleton_subseteq_l.
Qed.

Lemma markCompleted_twice_witness :
  let first := api_complete [] dqnModel (mkCompleteBody (Some "Sets") None)
                 (run [] dqnModel
                    [Complete (mkCompleteBody (Some "Introduction to Mathematical Logic") None)]
                    (freshProgress [] 0)) in
  let second := api_complete [] dqnModel (mkCompleteBody (Some "Sets") None) (snd first) in
  (score (snd first) = 20 ∧ "Sets" ∈ completedResources (snd first))
  ∧ (succeeded (fst second)
     ∧ completedResources (snd second) = completedResources (snd first)
     ∧ score (snd second) = 30).
Proof.
  intros first second.
  destruct (markCompleted_adds_resource_and_ten_points [] dqnModel)
    as (Hfirst & Hagain & _).
  split.
  - destruct (Hfirst (mkCompleteBody (Some "Sets") None)
                (run [] dqnModel
                   [Complete (mkCompleteBody
                                (Some "Introduction to Mathematical Logic") None)]
                   (freshProgress [] 0)))
      as (R & HR & Hin & _ & Hscore).
    + vm_compute. exact I.
    + injection HR as <-. split; [exact Hscore | exact Hin].
  - apply (Hagain
             [Complete (mkCompleteBody (Some "Introduction to Mathematical Logic") None);
              Complete (mkCompleteBody (Some "Sets") None)]
             0 "Sets" None).
    apply elem_of_union_l. by apply elem_of_singleton.
Defined.

(** C7.  [/api/reset-progress] replaces the store, whatever it held, by the
    object literal of start-up: no completed resource, score 0, position
    (0,0), empty path history, goal "complete_course", no achievement; the
    first server resets the four fields its store has. *)
Theorem resetProgress_fresh_instance
    (extractedData : list (string * RawEntry)) (now : Z)
    (lp : LearnerProgress) (mlp : Mock.LearnerProgress) :
  let lp' := api_reset_progress extractedData now lp in
  let mlp' := Mock.api_reset_progress extractedData mlp in
  lp' = freshProgress extractedData now
  ∧ completedResources lp' = ∅
  ∧ score lp' = 0
  ∧ currentPosition lp' = mkPosition (JS.Num 0) (JS.Num 0)
  ∧ pathHistory lp' = []
  ∧ currentGoal lp' = "complete_course"
  ∧ achievements lp' = []
  ∧ mlp' = Mock.freshProgress extractedData
  ∧ Mock.completedResources mlp' = ∅
  ∧ Mock.score mlp' = 0
  ∧ Mock.currentPosition mlp' = mkPosition (JS.Num 0) (JS.Num 0)
  ∧ Mock.pathHistory mlp' = [].
Proof. repeat split. Qed.

(** ** Names outside the catalog *)

Section Uncatalogued.

Variable extractedData : list (string * RawEntry).
Variable this : EnhancedDQNModel.


End Uncatalogued.



(** ** Achievements *)

Section Achievements.

Variable extractedData : list (string * RawEntry).
Variable this : EnhancedDQNModel.

Lemma includes_elem_of (name : string) (l : list string) :
  includes name l = true ↔ name ∈ l.
Proof.
  unfold includes. rewrite existsb_exists. split.
  - intros (x & Hx & Heq). apply String.eqb_eq in Heq. subst x.
    by apply list_elem_of_In.
  - intros H. exists name. split; [by apply list_elem_of_In | apply String.eqb_refl].
Qed.

Lemma checkAchievements_appends (lp : LearnerProgress) :
  achievements (checkAchievements lp)
  = achievements lp ++ map fst (List.filter (unlocks_now lp) thresholds).
Proof.
  unfold checkAchievements, thresholds, unlocks_now. cbn [achievements List.filter fst snd].
  repeat match goal with
         | |- context [if ?b then _ else _] => destruct b
         end; reflexivity.
Qed.

Lemma thresholds_functional (name : string) (n m : nat) :
  (name, n) ∈ thresholds → (name, m) ∈ thresholds → n = m.
Proof.
  unfold thresholds. rewrite !elem_of_cons, !elem_of_nil. intros Hn Hm.
  repeat match goal with
         | H : _ ∨ _ |- _ => destruct H
         end; solve [done | congruence].
Qed.

Lemma thresholds_positive (name : string) (n : nat) :
  (name, n) ∈ thresholds → (1 ≤ n)%nat.
Proof.
  unfold thresholds. rewrite !elem_of_cons, !elem_of_nil.
  intros H. repeat destruct H as [H|H]; try (injection H as -> ->; lia). destruct H.
Qed.

Lemma NoDup_threshold_names : NoDup (map fst thresholds).
Proof.
  apply (bool_decide_unpack _). vm_compute. exact I.
Qed.

Lemma NoDup_filter_names (f : string * nat → bool) (l : list (string * nat)) :
  NoDup (map fst l) → NoDup (map fst (List.filter f l)).
Proof.
  induction l as [|a l IH]; simpl; [done|].
  intros Hnd. apply NoDup_cons in Hnd as [Hnotin Hnd].
  destruct (f a); simpl; [|by apply IH].
  apply NoDup_cons. split; [|by apply IH].
  intros Hin. apply Hnotin.
  apply list_elem_of_fmap in Hin as (b & -> & Hb).
  apply list_elem_of_fmap. exists b. split; [done|].
  apply list_elem_of_In in Hb. apply filter_In in Hb as [Hb _].
  by apply list_elem_of_In.
Qed.

Lemma elem_of_unlocked_now (lp : LearnerProgress) (name : string) :
  name ∈ map fst (List.filter (unlocks_now lp) thresholds)
  ↔ ∃ n, (name, n) ∈ thresholds ∧ unlocks_now lp (name, n) = true.
Proof.
  rewrite list_elem_of_fmap. split.
  - intros ([name' n] & -> & H). exists n.
    apply list_elem_of_In, filter_In in H as [H1 H2]. split; [|done].
    by apply list_elem_of_In.
  - intros (n & H1 & H2). exists (name, n). split; [done|].
    apply list_elem_of_In, filter_In. split; [|done]. by apply list_elem_of_In.
Qed.

Lemma checkAchievements_consistent (R : string) (pos : option Position)
    (lp : LearnerProgress) :
  achievements_consistent lp →
  achievements_consistent (checkAchievements (addCompleted R pos lp)).
Proof.
  intros [Hnd Hiff].
  set (lp1 := addCompleted R pos lp).
  assert (Hsize : (size (completedResources lp) ≤ size (completedResources lp1))%nat).
  { apply subseteq_size. simpl. apply union_subseteq_r. }
  unfold achievements_consistent.
  rewrite checkAchievements_appends.
  destruct (checkAchievements_frame lp1) as (-> & _).
  change (achievements lp1) with (achievements lp).
  split.
  - apply NoDup_app. split; [done|]. split.
    + intros name Hold Hnew.
      apply elem_of_unlocked_now in Hnew as (n & _ & Hnow).
      unfold unlocks_now in Hnow. simpl in Hnow.
      apply andb_true_iff in Hnow as [_ Hnot]. apply negb_true_iff in Hnot.
      apply includes_elem_of in Hold. congruence.
    + apply NoDup_filter_names, NoDup_threshold_names.
  - intros name n Hth. rewrite elem_of_app, elem_of_unlocked_now. split.
    + intros [Hold | (m & Hm & Hnow)].
      * apply (Hiff name n Hth) in Hold. lia.
      * rewrite (thresholds_functional name n m Hth Hm).
        unfold unlocks_now in Hnow. simpl in Hnow.
        apply andb_true_iff in Hnow as [Hle _]. by apply Nat.leb_le in Hle.
    + intros Hle. destruct (includes name (achievements lp)) eqn:Hinc.
      * left. by apply includes_elem_of.
      * right. exists n. split; [done|]. unfold unlocks_now. simpl.
        rewrite Hinc. apply andb_true_iff. split; [by apply Nat.leb_le | done].
Qed.

Lemma fresh_achievements_consistent (now : Z) :
  achievements_consistent (freshProgress extractedData now).
Proof.
  split; [constructor|]. intros name n Hth.
  change (achievements (freshProgress extractedData now)) with (@nil string).
  change (completedResources (freshProgress extractedData now)) with (∅ : gset string).
  rewrite elem_of_nil, size_empty. apply thresholds_positive in Hth. lia.
Qed.

Lemma reachable_achievements_consistent (reqs : list Request) (now : Z) :
  achievements_consistent
    (run extractedData this reqs (freshProgress extractedData now)).
Proof.
  induction reqs as [|req reqs IH] using rev_ind.
  - apply fresh_achievements_consistent.
  - rewrite run_snoc.
    destruct (handle_cases extractedData this
                (run extractedData this reqs (freshProgress extractedData now)) req)
      as [(_ & Hc & Ha & _) | [(_ & R & pos & _ & _ & ->) | (now' & _ & ->)]].
    + unfold achievements_consistent. rewrite Hc, Ha. exact IH.
    + by apply checkAchievements_consistent.
    + apply fresh_achievements_consistent.
Qed.

Lemma achievements_only_grow (lp : LearnerProgress) (req : Request) :
  is_reset req = false →
  achievements lp `prefix_of` achievements (handle extractedData this lp req).
Proof.
  intros Hreq.
  destruct (handle_cases extractedData this lp req)
    as [(_ & _ & Ha & _) | [(_ & R & pos & _ & _ & ->) | (now' & -> & _)]].
  - by rewrite Ha.
  - rewrite checkAchievements_appends. by apply prefix_app_r.
  - discriminate.
Qed.

End Achievements.

(** C8.  In every store the server reaches, by any sequence of requests,
    the list of unlocked achievements has no duplicate and holds the
    achievement of a threshold (1, 5, 10, 20, 50) exactly when the completed
    count has reached that threshold; and every request other than a reset
    keeps the achievements already unlocked, in place, at the head of the
    list. *)
Theorem achievements_unlock_once_and_stay
    (extractedData : list (string * RawEntry)) (this : EnhancedDQNModel)
    (reqs : list Request) (now : Z) :
  let lp := run extractedData this reqs (freshProgress extractedData now) in
  NoDup (achievements lp)
  ∧ (∀ name n, (name, n) ∈ thresholds →
               (name ∈ achievements lp ↔ (n ≤ size (completedResources lp))%nat))
  ∧ (∀ req, is_reset req = false →
            achievements lp `prefix_of` achievements (handle extractedData this lp req)).
Proof.
  intros lp.
  destruct (reachable_achievements_consistent extractedData this reqs now) as [Hnd Hiff].
  split; [exact Hnd|]. split; [exact Hiff|].
  intros req. apply achievements_only_grow.
Qed.

Lemma achievements_first_steps_witness :
  let lp := run [] dqnModel
              [Complete (mkCompleteBody (Some "Introduction to Mathematical Logic") None);
               Complete (mkCompleteBody (Some "Introduction to Mathematical Logic") None)]
              (freshProgress [] 0) in
  achievements lp = ["First Steps"]
  ∧ achievements lp `prefix_of`
      achievements (handle [] dqnModel lp (Complete (mkCompleteBody (Some "Sets") None))).
Proof.
  intros lp. split; [vm_compute; reflexivity|].
  apply (proj2 (proj2 (achievements_unlock_once_and_stay [] dqnModel
                         [Complete (mkCompleteBody
                                      (Some "Introduction to Mathematical Logic") None);
                          Complete (mkCompleteBody
                                      (Some "Introduction to Mathematical Logic") None)]
                         0))).
  reflexivity.
Defined.

(** ** Paths of the prerequisite-aware server *)

Section EnhancedPaths.

Variable this : EnhancedDQNModel.

Lemma dqn_loop_exit (fuel : nat) (rnd : nat → bool) (target : Position)
    (steps : nat) (current : Position) (path : list PathStep) :
  Nat.ltb steps maxSteps
  && (JS.strict_neq (pos_x current) (pos_x target)
      || JS.strict_neq (pos_y current) (pos_y target)) = false →
  dqn_loop this fuel rnd target steps current path = Some path.
Proof. intros Hguard. destruct fuel; cbn [dqn_loop]; by rewrite Hguard. Qed.

Lemma dqn_loop_break (fuel : nat) (rnd : nat → bool) (target : Position)
    (steps : nat) (current : Position) (path : list PathStep) :
  chooseAction rnd steps current target = None
  ∨ (∃ action, chooseAction rnd steps current target = Some action
               ∧ applyAction this action current = None) →
  dqn_loop this (S fuel) rnd target steps current path = Some path.
Proof.
  intros Hbreak. cbn [dqn_loop].
  destruct (_ && _); [|done].
  destruct Hbreak as [-> | (action & -> & ->)]; done.
Qed.

Lemma dqn_loop_step (fuel : nat) (rnd : nat → bool) (target : Position)
    (steps : nat) (current : Position) (path : list PathStep)
    (action : bool) (current' : Position) (actionName : string) :
  Nat.ltb steps maxSteps
  && (JS.strict_neq (pos_x current) (pos_x target)
      || JS.strict_neq (pos_y current) (pos_y target)) = true →
  chooseAction rnd steps current target = Some action →
  applyAction this action current = Some (current', actionName) →
  dqn_loop this (S fuel) rnd target steps current path
  = dqn_loop this fuel rnd target (S steps) current'
      (path ++ [mkPathStep (pos_x current') (pos_y current') actionName (Some (S steps))]).
Proof. intros Hguard Hchoose Happly. cbn [dqn_loop]. by rewrite Hguard, Hchoose, Happly. Qed.

(** The loop exits within [maxSteps - steps] iterations, whatever the
    positions are, and pushes at most that many steps. *)
Lemma dqn_loop_total (fuel : nat) (rnd : nat → bool) (target : Position) :
  ∀ (steps : nat) (current : Position) (path : list PathStep),
    (steps ≤ maxSteps)%nat → (maxSteps ≤ steps + fuel)%nat →
    ∃ pushed : list PathStep,
      dqn_loop this fuel rnd target steps current path = Some (path ++ pushed)
      ∧ (steps + length pushed ≤ maxSteps)%nat.
Proof.
  induction fuel as [|fuel IH]; intros steps current path Hle Hfuel.
  - exists []. rewrite app_nil_r. split; [|simpl; lia].
    apply dqn_loop_exit. apply andb_false_iff. left. apply Nat.ltb_ge. lia.
  - destruct (Nat.ltb steps maxSteps
              && (JS.strict_neq (pos_x current) (pos_x target)
                  || JS.strict_neq (pos_y current) (pos_y target))) eqn:Hguard.
    2:{ exists []. rewrite app_nil_r. split; [by apply dqn_loop_exit | simpl; lia]. }
    assert (Hlt : (steps < maxSteps)%nat).
    { apply andb_true_iff in Hguard as [Hlt _]. by apply Nat.ltb_lt. }
    destruct (chooseAction rnd steps current target) as [action|] eqn:Hchoose.
    2:{ exists []. rewrite app_nil_r. split; [|simpl; lia].
        apply dqn_loop_break. by left. }
    destruct (applyAction this action current) as [[current' actionName]|] eqn:Happly.
    2:{ exists []. rewrite app_nil_r. split; [|simpl; lia].
        apply dqn_loop_break. right. by exists action. }
    rewrite (dqn_loop_step fuel rnd target steps current path action current' actionName)
      by done.
    destruct (IH (S steps) current'
                (path ++ [mkPathStep (pos_x current') (pos_y current') actionName
                            (Some (S steps))]))
      as (pushed & -> & Hlen); [lia | lia |].
    eexists (_ :: pushed). rewrite <- app_assoc. split; [reflexivity|]. simpl. lia.
Qed.

Lemma generateDQNPath_fuel_total (rnd : nat → bool) (start target : Position) :
  ∃ path : list PathStep,
    generateDQNPath_fuel this maxSteps rnd start target = Some path
    ∧ generateDQNPath this rnd start target = path
    ∧ (length path ≤ maxSteps)%nat.
Proof.
  destruct (dqn_loop_total maxSteps rnd target 0 start []) as (path & Hrun & Hlen);
    [lia | lia |].
  exists path. unfold generateDQNPath, generateDQNPath_fuel. rewrite Hrun.
  split; [done|]. split; [done|]. simpl in Hlen. lia.
Qed.

End EnhancedPaths.

Lemma final_position_cons (start : Position) (s : PathStep) (rest : list PathStep) :
  final_position start (s :: rest) = final_position (cell_of s) rest.
Proof.
  unfold final_position. destruct rest as [|s' rest]; [done|].
  rewrite last_cons_cons.
  destruct (last (s' :: rest)) eqn:Hlast; [done|].
  by apply last_None in Hlast.
Qed.

Section EnhancedReach.

Variable this : EnhancedDQNModel.
Variable rnd : nat → bool.
Variables ta tb : Z.
Hypothesis Hta : ta ≤ gridSizeX this - 1.
Hypothesis Htb : tb ≤ gridSizeY this - 1.

Local Abbreviation target := (mkPosition (JS.Num ta) (JS.Num tb)).

(** From a cell that is neither right of nor above the target, with enough
    of the step budget left, the loop walks to the target. *)
Lemma dqn_loop_reaches (n : nat) :
  ∀ (fuel steps : nat) (a b : Z) (path : list PathStep),
    Z.of_nat n = (ta - a) + (tb - b) → 0 ≤ a ≤ ta → 0 ≤ b ≤ tb →
    (steps + n ≤ maxSteps)%nat → (n ≤ fuel)%nat →
    ∃ pushed : list PathStep,
      dqn_loop this fuel rnd target steps (mkPosition (JS.Num a) (JS.Num b)) path
      = Some (path ++ pushed)
      ∧ length pushed = n
      ∧ final_position (mkPosition (JS.Num a) (JS.Num b)) pushed = target
      ∧ unit_moves (gridSizeX this) (gridSizeY this) target
          (mkPosition (JS.Num a) (JS.Num b)) pushed.
Proof.
  induction n as [|n IH]; intros fuel steps a b path Hdist Ha Hb Hsteps Hfuel.
  - assert (a = ta) as -> by lia. assert (b = tb) as -> by lia.
    exists []. rewrite app_nil_r. split; [|done].
    apply dqn_loop_exit. simpl. rewrite !Z.eqb_refl. simpl. apply andb_false_r.
  - destruct fuel as [|fuel]; [lia|].
    assert (Hguard :
      Nat.ltb steps maxSteps
      && (JS.strict_neq (JS.Num a) (JS.Num ta) || JS.strict_neq (JS.Num b) (JS.Num tb))
      = true).
    { apply andb_true_iff. split; [apply Nat.ltb_lt; lia|]. simpl.
      apply orb_true_iff. rewrite !negb_true_iff, !Z.eqb_neq. lia. }
    (* the move that the two [if] chains select *)
    assert (Hmove :
      ∃ action a' b' actionName,
        chooseAction rnd steps (mkPosition (JS.Num a) (JS.Num b)) target = Some action
        ∧ applyAction this action (mkPosition (JS.Num a) (JS.Num b))
          = Some (mkPosition (JS.Num a') (JS.Num b'), actionName)
        ∧ ((a' = a + 1 ∧ b' = b ∧ a < ta) ∨ (a' = a ∧ b' = b + 1 ∧ b < tb))).
    { unfold chooseAction, applyAction. simpl.
      destruct (Z.ltb_spec a ta) as [Hlta|Hgea], (Z.ltb_spec b tb) as [Hltb|Hgeb]; simpl.
      - destruct (rnd steps); simpl.
        + exists true, (a + 1), b, "RIGHT". split; [done|].
          destruct (Z.ltb_spec a (gridSizeX this - 1)); [|lia]. split; [done|]. lia.
        + exists false, a, (b + 1), "UP". split; [done|].
          destruct (Z.ltb_spec b (gridSizeY this - 1)); [|lia]. split; [done|]. lia.
      - exists true, (a + 1), b, "RIGHT". split; [done|]. simpl.
        destruct (Z.ltb_spec a (gridSizeX this - 1)); [|lia]. split; [done|]. lia.
      - exists false, a, (b + 1), "UP". split; [done|]. simpl.
        destruct (Z.ltb_spec b (gridSizeY this - 1)); [|lia]. split; [done|]. lia.
      - lia. }
    destruct Hmove as (action & a' & b' & actionName & Hchoose & Happly & Hab).
    rewrite (dqn_loop_step this fuel rnd target steps
               (mkPosition (JS.Num a) (JS.Num b)) path action
               (mkPosition (JS.Num a') (JS.Num b')) actionName Hguard Hchoose Happly).
    cbn [pos_x pos_y].
    destruct (IH fuel (S steps) a' b'
                (path ++ [mkPathStep (JS.Num a') (JS.Num b') actionName (Some (S steps))]))
      as (pushed & -> & Hlen & Hfinal & Hmoves); [lia | lia | lia | lia | lia |].
    eexists (_ :: pushed). rewrite <- app_assoc. split; [reflexivity|].
    split; [simpl; lia|]. rewrite final_position_cons. split; [exact Hfinal|].
    split; [|exact Hmoves].
    exists a, b, ta, tb. split; [done|]. split; [done|]. split.
    + exists a', b'. split; [done|]. lia.
    + unfold cell_of. simpl.
      destruct Hab as [(-> & -> & Hlt) | (-> & -> & Hlt)].
      * left. split; [lia|]. by left.
      * right. split; [lia|]. by left.
Qed.

End EnhancedReach.

(** ** Paths of the first server *)

Lemma path_loop_exit (fuel : nat) (target current : Position) (path : list PathStep) :
  JS.strict_neq (pos_x current) (pos_x target)
  || JS.strict_neq (pos_y current) (pos_y target) = false →
  Mock.path_loop fuel target current path = Some path.
Proof. intros Hguard. destruct fuel; cbn [Mock.path_loop]; by rewrite Hguard. Qed.


Section MockReach.

Variables gx gy ta tb : Z.
Hypothesis Hta : 0 ≤ ta ≤ gx - 1.
Hypothesis Htb : 0 ≤ tb ≤ gy - 1.

Local Abbreviation target := (mkPosition (JS.Num ta) (JS.Num tb)).


End MockReach.

(** With [undefined] coordinates no branch of the loop body fires: the
    body returns the position and the path it was given. *)
Lemma path_loop_stuck (fuel : nat) (tx : Z) (ty : JS.value) :
  Mock.path_loop fuel (mkPosition (JS.Num tx) ty)
    (mkPosition JS.Undefined JS.Undefined) [] = None.
Proof. induction fuel as [|fuel IH]; [reflexivity | exact IH]. Qed.

(** ** Grid cells of the catalog *)

(** What holds of the prerequisite-aware server: every resource it lists
    lies in the grid, its cell being the scaled coordinate clamped to the
    grid. *)
Lemma getResourcePositions_in_grid
    (extractedData : list (string * RawEntry)) (this : EnhancedDQNModel) (r : Resource) :
  1 ≤ gridSizeX this → 1 ≤ gridSizeY this →
  r ∈ getResourcePositions extractedData this →
  (∃ data : RawEntry,
     (res_name r, data) ∈ extractedData
     ∧ res_x r = Z.max 0 (Z.min (floor_scaled (x_coordinate data) (gridSizeX this))
                                (gridSizeX this - 1))
     ∧ res_y r = Z.max 0 (Z.min (floor_scaled (y_coordinate data) (gridSizeY this))
                                (gridSizeY this - 1)))
  ∧ 0 ≤ res_x r ≤ gridSizeX this - 1
  ∧ 0 ≤ res_y r ≤ gridSizeY this - 1.
Proof.
  intros Hx Hy Hr. unfold getResourcePositions in Hr.
  apply list_elem_of_fmap in Hr as ([name data] & -> & Hin). simpl.
  split; [by exists data|]. lia.
Qed.

(** ** Reaching the target *)

Lemma generateDQNPath_reaches (this : EnhancedDQNModel) (rnd : nat → bool)
    (a b ta tb : Z) :
  0 ≤ a ≤ ta → ta ≤ gridSizeX this - 1 →
  0 ≤ b ≤ tb → tb ≤ gridSizeY this - 1 →
  (Z.to_nat ((ta - a) + (tb - b)) ≤ maxSteps)%nat →
  ∃ path : list PathStep,
    generateDQNPath_fuel this maxSteps rnd
      (mkPosition (JS.Num a) (JS.Num b)) (mkPosition (JS.Num ta) (JS.Num tb)) = Some path
    ∧ generateDQNPath this rnd
        (mkPosition (JS.Num a) (JS.Num b)) (mkPosition (JS.Num ta) (JS.Num tb)) = path
    ∧ unit_moves (gridSizeX this) (gridSizeY this)
        (mkPosition (JS.Num ta) (JS.Num tb)) (mkPosition (JS.Num a) (JS.Num b)) path
    ∧ final_position (mkPosition (JS.Num a) (JS.Num b)) path
      = mkPosition (JS.Num ta) (JS.Num tb)
    ∧ length path = Z.to_nat ((ta - a) + (tb - b)).
Proof.
  intros Ha Hta Hb Htb Hdist.
  destruct (dqn_loop_reaches this rnd ta tb Hta Htb (Z.to_nat ((ta - a) + (tb - b)))
              maxSteps 0%nat a b []) as (pushed & Hrun & Hlen & Hfinal & Hmoves);
    [lia | lia | lia | simpl; lia | lia |].
  exists pushed. unfold generateDQNPath, generateDQNPath_fuel. rewrite Hrun. by simpl.
Qed.





(** The step budget also cuts the walk from the origin to a catalog
    resource that lies more than [maxSteps] moves away. *)
Lemma buildPath_far_resource_not_reached :
  let extractedData := [("Far", mkRawEntry (99 # 100) (99 # 100))] in
  let start := mkPosition (JS.Num 0) (JS.Num 0) in
  ∃ B, B ∈ getResourcePositions extractedData dqnModel
       ∧ length (generateDQNPath dqnModel Nat.even start (position_of B)) = maxSteps
       ∧ final_position start (generateDQNPath dqnModel Nat.even start (position_of B))
         ≠ position_of B.
Proof.
  intros extractedData start. exists (mkResource "Far" 19 19).
  split; [by left|]. split; [vm_compute; reflexivity|]. vm_compute. discriminate.
Qed.

(** The moves are clamped at the upper edges of the grid only: from a
    start left of the grid the first step still lies outside it. *)
Lemma buildPath_from_outside_steps_outside :
  let start := mkPosition (JS.Num (-2)) (JS.Num 0) in
  let target := mkPosition (JS.Num 0) (JS.Num 0) in
  ∃ s rest, generateDQNPath dqnModel Nat.even start target = s :: rest
            ∧ cell_of s = mkPosition (JS.Num (-1)) (JS.Num 0)
            ∧ ¬ in_grid (gridSizeX dqnModel) (gridSizeY dqnModel) (cell_of s).
Proof.
  intros start target. eexists _, _. split; [vm_compute; reflexivity|].
  split; [reflexivity|]. intros (a & b & Hcell & Ha & _).
  injection Hcell as <- _. lia.
Qed.

(** What holds of the prerequisite-aware server whatever it is given,
    malformed positions included: the loop of [generateDQNPath] exits
    within [maxSteps] iterations and the path has at most [maxSteps] steps. *)
Lemma generateDQNPath_terminates_within_maxSteps
    (this : EnhancedDQNModel) (rnd : nat → bool) (start target : Position) :
  ∃ path : list PathStep,
    generateDQNPath_fuel this maxSteps rnd start target = Some path
    ∧ generateDQNPath this rnd start target = path
    ∧ (length path ≤ 20)%nat.
Proof. apply generateDQNPath_fuel_total. Qed.

(** C5, at the failing inputs of the first server.  With a start whose
    coordinates are [undefined] and a target on any column of the grid, the
    loop of [generatePathTo] has not exited after any number of iterations:
    no branch of its body fires, the path stays empty and the guard on its
    length is never reached.  And with integer cells 60 apart the loop
    stops only after the 51st step. *)
Theorem generatePathTo_unbounded_on_first_server :
  (∀ (fuel : nat) (tx : Z) (ty : JS.value),
     Mock.generatePathTo fuel (mkPosition JS.Undefined JS.Undefined)
       (mkPosition (JS.Num tx) ty) = None)
  ∧ (∃ path : list PathStep,
       Mock.generatePathTo 60 (mkPosition (JS.Num 0) (JS.Num 0))
         (mkPosition (JS.Num 60) (JS.Num 0)) = Some path
       ∧ length path = 51%nat).
Proof.
  split.
  - intros fuel tx ty. apply path_loop_stuck.
  - eexists. split; [vm_compute; reflexivity|]. reflexivity.
Qed.

(** C9, at the failing input of the first server.  For a catalog with
    coordinates 0 and 1/2, [getResourcePositions] of the first server, which
    multiplies by 100 and subtracts the minimum without clamping, puts the
    second resource on cell (50,50), outside the 20 x 20 grid the server
    announces. *)
Theorem getResourcePositions_outside_grid_on_first_server :
  let extractedData :=
    [("A", mkRawEntry (0 # 1) (0 # 1)); ("B", mkRawEntry (1 # 2) (1 # 2))] in
  Mock.getResourcePositions extractedData
  = [mkResource "A" 0 0; mkResource "B" 50 50]
  ∧ ¬ (50 ≤ Mock.gridSizeX Mock.dqnModel - 1)
  ∧ ¬ (50 ≤ Mock.gridSizeY Mock.dqnModel - 1)
  ∧ getResourcePositions extractedData dqnModel
    = [mkResource "A" 0 0; mkResource "B" 10 10].
Proof.
  intros extractedData. split; [vm_compute; reflexivity|].
  split; [simpl; lia|]. split; [simpl; lia|]. vm_compute. reflexivity.
Qed.

(** * Further properties of the two servers *)

(** ** What is recommended and what is available *)

Section FilterFacts.

Context {A : Type}.

Lemma find_some_test (f : A → bool) (l : list A) (x : A) :
  List.find f l = Some x → x ∈ l ∧ f x = true.
Proof. intros H. apply find_some in H as [Hin Hf]. split; [by apply list_elem_of_In | done]. Qed.

Lemma find_none_test (f : A → bool) (l : list A) :
  List.find f l = None → ∀ y, y ∈ l → f y = false.
Proof. intros H y Hy. apply (List.find_none f l H). by apply list_elem_of_In. Qed.

Lemma elem_of_list_filter_bool (f : A → bool) (l : list A) (x : A) :
  x ∈ List.filter f l ↔ x ∈ l ∧ f x = true.
Proof. by rewrite !list_elem_of_In, filter_In. Qed.

Lemma filter_nil_test (f : A → bool) (l : list A) :
  List.filter f l = [] → ∀ y, y ∈ l → f y = false.
Proof.
  intros H y Hy. destruct (f y) eqn:Hf; [|done].
  assert (Hin : y ∈ List.filter f l) by by apply elem_of_list_filter_bool.
  rewrite H in Hin. by apply elem_of_nil in Hin.
Qed.

End FilterFacts.

Section RecommendationFacts.

Variable extractedData : list (string * RawEntry).
Variable this : EnhancedDQNModel.

Lemma elem_of_getAvailableResources (C : gset string) (r : Resource) :
  r ∈ getAvailableResources extractedData this C
  ↔ r ∈ getResourcePositions extractedData this ∧ recommendable this C (res_name r).
Proof.
  unfold getAvailableResources. rewrite elem_of_list_filter_bool.
  by rewrite recommendable_test.
Qed.

Lemma available_then_recommended (C : gset string) (g : string) :
  getAvailableResources extractedData this C ≠ [] →
  getNextRecommendedResource extractedData this C g ≠ None.
Proof.
  intros Havail. unfold getNextRecommendedResource.
  destruct (List.find _ _); [done|].
  by destruct (getAvailableResources extractedData this C).
Qed.

End RecommendationFacts.

Lemma recommendNext_is_sound_aux
    (extractedData : list (string * RawEntry)) (this : EnhancedDQNModel)
    (C : gset string) (g : string) :
  (∀ r, getNextRecommendedResource extractedData this C g = Some r →
        (r ∉ C) ∧ ∀ p, is_prerequisite this p r → p ∈ C)
  ∧ (getNextRecommendedResource extractedData this C g = None →
     getAvailableResources extractedData this C = []
     ∧ ∀ r, r ∈ catalog_names extractedData → ¬ recommendable this C r).
Proof.
  split.
  - intros r. unfold getNextRecommendedResource.
    destruct (List.find _ _) as [r'|] eqn:Hfind.
    + intros [= <-]. apply find_some_test in Hfind as [_ Htest].
      by apply recommendable_test in Htest.
    + destruct (getAvailableResources extractedData this C) as [|r' rest] eqn:Havail;
        [done|].
      intros [= <-].
      assert (Hin : r' ∈ getAvailableResources extractedData this C)
        by (rewrite Havail; left).
      by apply elem_of_getAvailableResources in Hin as [_ Hrec].
  - intros Hnone.
    assert (Havail : getAvailableResources extractedData this C = []).
    { destruct (getAvailableResources extractedData this C) eqn:Havail; [done|].
      exfalso. apply (available_then_recommended extractedData this C g); [|done].
      by rewrite Havail. }
    split; [done|]. intros r Hr Hrec.
    rewrite <- (getResourcePositions_names extractedData this) in Hr.
    apply list_elem_of_fmap in Hr as (res & -> & Hres).
    assert (Hin : res ∈ getAvailableResources extractedData this C)
      by by apply elem_of_getAvailableResources.
    rewrite Havail in Hin. by apply elem_of_nil in Hin.
Qed.

(** X1.  Whatever [getNextRecommendedResource] returns is not completed and
    has all its prerequisites completed; and it returns [null] only when
    the list of available resources is empty, that is when no resource of
    the catalog is both uncompleted and unblocked. *)
Theorem recommendNext_is_sound
    (extractedData : list (string * RawEntry)) (this : EnhancedDQNModel)
    (C : gset string) (g : string) :
  (∀ r, getNextRecommendedResource extractedData this C g = Some r →
        (r ∉ C) ∧ ∀ p, is_prerequisite this p r → p ∈ C)
  ∧ (getNextRecommendedResource extractedData this C g = None →
     getAvailableResources extractedData this C = []
     ∧ ∀ r, r ∈ catalog_names extractedData → ¬ recommendable this C r).
Proof. apply recommendNext_is_sound_aux. Qed.

Lemma recommendNext_is_sound_witness :
  ("Logical Equivalence" ∉ ({["Introduction to Mathematical Logic"]} : gset string))
  ∧ getAvailableResources [] dqnModel (list_to_set complete_course) = [].
Proof.
  split.
  - apply (proj1 (recommendNext_is_sound []
                    dqnModel {["Introduction to Mathematical Logic"]} "no_such_goal")
             "Logical Equivalence").
    vm_compute. reflexivity.
  - apply (proj2 (recommendNext_is_sound [] dqnModel
                    (list_to_set complete_course) "complete_course")).
    vm_compute. reflexivity.
Defined.

Section AvailabilityFacts.

Variable extractedData : list (string * RawEntry).
Variable this : EnhancedDQNModel.

(** an unmet check exhibits a listed prerequisite that is not completed *)
Lemma checkPrerequisites_false (r : string) (C : gset string) :
  checkPrerequisites this r C = false → ∃ p, is_prerequisite this p r ∧ p ∉ C.
Proof.
  unfold checkPrerequisites, is_prerequisite.
  destruct (prerequisites this !! r) as [ps|]; simpl; [|done].
  intros Hfalse.
  assert (Hex : ∃ p, p ∈ ps ∧ p ∉ C).
  { induction ps as [|q ps IH]; simpl in Hfalse; [done|].
    apply andb_false_iff in Hfalse as [Hq | Hrest].
    - exists q. split; [by left|]. by apply bool_decide_eq_false in Hq.
    - destruct (IH Hrest) as (p & Hp & HpC). exists p. split; [by right | done]. }
  destruct Hex as (p & Hp & HpC). exists p. split; [by exists ps | done].
Qed.

End AvailabilityFacts.

(** X2.  Completing a resource [R] never blocks another one: every other
    resource that was available stays available, [R] itself leaves the
    list, and a resource that enters the list has [R] among its
    prerequisites. *)
Theorem completing_only_unlocks
    (extractedData : list (string * RawEntry)) (this : EnhancedDQNModel)
    (C : gset string) (R : string) :
  (∀ r, r ∈ getAvailableResources extractedData this C → res_name r ≠ R →
        r ∈ getAvailableResources extractedData this ({[R]} ∪ C))
  ∧ (∀ r, r ∈ getAvailableResources extractedData this ({[R]} ∪ C) → res_name r ≠ R)
  ∧ (∀ r, r ∈ getAvailableResources extractedData this ({[R]} ∪ C) →
          r ∉ getAvailableResources extractedData this C →
          is_prerequisite this R (res_name r)).
Proof.
  split; [|split].
  - intros r Hr Hne. apply elem_of_getAvailableResources in Hr as (Hpos & Hnot & Hmet).
    apply elem_of_getAvailableResources. split; [done|]. split.
    + intros Hin. apply elem_of_union in Hin as [Hin | Hin]; [|done].
      apply elem_of_singleton in Hin. done.
    + intros p Hp. apply elem_of_union_r. by apply Hmet.
  - intros r Hr Heq. apply elem_of_getAvailableResources in Hr as (_ & Hnot & _).
    apply Hnot. apply elem_of_union_l. by apply elem_of_singleton.
  - intros r Hr Hnotavail.
    apply elem_of_getAvailableResources in Hr as (Hpos & Hnot & Hmet).
    destruct (checkPrerequisites this (res_name r) C) eqn:Hcheck.
    + exfalso. apply Hnotavail. apply elem_of_getAvailableResources.
      split; [done|]. split.
      * intros Hin. apply Hnot. by apply elem_of_union_r.
      * by apply checkPrerequisites_met.
    + apply checkPrerequisites_false in Hcheck as (p & Hp & HpC).
      specialize (Hmet p Hp). apply elem_of_union in Hmet as [Hin | Hin]; [|done].
      apply elem_of_singleton in Hin. by subst p.
Qed.

Lemma completing_only_unlocks_witness :
  let catalog := [("Sets", mkRawEntry (1 # 10) (1 # 10));
                  ("Relations", mkRawEntry (2 # 10) (1 # 10))] in
  let C : gset string := {["Introduction to Mathematical Logic"]} in
  getAvailableResources catalog dqnModel C = [mkResource "Sets" 2 2]
  ∧ getAvailableResources catalog dqnModel ({["Sets"]} ∪ C) = [mkResource "Relations" 4 2]
  ∧ is_prerequisite dqnModel "Sets" "Relations".
Proof.
  intros catalog C. split; [vm_compute; reflexivity|]. split; [vm_compute; reflexivity|].
  apply (proj2 (proj2 (completing_only_unlocks catalog dqnModel C "Sets"))
           (mkResource "Relations" 4 2)).
  - vm_compute. by left.
  - intros Hin. vm_compute in Hin. apply list_elem_of_singleton in Hin. discriminate.
Defined.

(** X3.  In every store the server reaches, the completed set is closed
    under prerequisites: a completed name is not empty and each of its
    listed prerequisites is completed too. *)
Theorem completed_set_is_prerequisite_closed
    (extractedData : list (string * RawEntry)) (this : EnhancedDQNModel)
    (reqs : list Request) (now : Z) (R p : string) :
  let lp := run extractedData this reqs (freshProgress extractedData now) in
  R ∈ completedResources lp →
  R ≠ "" ∧ (is_prerequisite this p R → p ∈ completedResources lp).
Proof.
  intros lp HR.
  destruct (reachable_prerequisite_closed extractedData this reqs now R HR)
    as [Hne Hcheck].
  split; [done|]. intros Hp. apply checkPrerequisites_met in Hcheck. by apply Hcheck.
Qed.

Lemma completed_set_is_prerequisite_closed_witness :
  let lp := run [] dqnModel
              [Complete (mkCompleteBody (Some "Logical Equivalence") None);
               Complete (mkCompleteBody (Some "Introduction to Mathematical Logic") None);
               Complete (mkCompleteBody (Some "Logical Equivalence") None)]
              (freshProgress [] 0) in
  "Logical Equivalence" ∈ completedResources lp
  ∧ "Introduction to Mathematical Logic" ∈ completedResources lp.
Proof.
  intros lp.
  assert (Hin : "Logical Equivalence" ∈ completedResources lp).
  { apply elem_of_union_l. by apply elem_of_singleton. }
  split; [exact Hin|].
  apply (proj2 (completed_set_is_prerequisite_closed [] dqnModel
                  [Complete (mkCompleteBody (Some "Logical Equivalence") None);
                   Complete (mkCompleteBody
                               (Some "Introduction to Mathematical Logic") None);
                   Complete (mkCompleteBody (Some "Logical Equivalence") None)]
                  0 "Logical Equivalence" "Introduction to Mathematical Logic" Hin)).
  exists ["Introduction to Mathematical Logic"]. split; [reflexivity | by left].
Defined.

Section ScoreFacts.

Variable extractedData : list (string * RawEntry).
Variable this : EnhancedDQNModel.

Lemma size_add_le (R : string) (C : gset string) :
  (size ({[R]} ∪ C) ≤ S (size C))%nat.
Proof.
  rewrite size_union_alt, size_singleton.
  assert (size (C ∖ {[R]}) ≤ size C)%nat
    by (apply subseteq_size; by apply subseteq_difference_l).
  lia.
Qed.

End ScoreFacts.

(** X4.  In every store the server reaches the score is a multiple of 10
    and at least ten times the completed count. *)
Theorem score_counts_every_completion
    (extractedData : list (string * RawEntry)) (this : EnhancedDQNModel)
    (reqs : list Request) (now : Z) :
  let lp := run extractedData this reqs (freshProgress extractedData now) in
  10 * Z.of_nat (size (completedResources lp)) ≤ score lp
  ∧ ∃ accepted : nat, score lp = 10 * Z.of_nat accepted.
Proof.
  induction reqs as [|req reqs IH] using rev_ind.
  - cbv zeta. change (completedResources (run extractedData this [] _)) with (∅ : gset string).
    rewrite size_empty. split; [done|]. by exists 0%nat.
  - cbv zeta in *. rewrite run_snoc.
    destruct IH as [IHle (accepted & IHacc)].
    destruct (handle_cases extractedData this
                (run extractedData this reqs (freshProgress extractedData now)) req)
      as [(_ & Hc & _ & Hs & _) | [(_ & R & pos & _ & _ & ->) | (now' & _ & ->)]].
    + rewrite Hc, Hs. split; [done|]. by exists accepted.
    + simpl. pose proof (size_add_le R
        (completedResources (run extractedData this reqs (freshProgress extractedData now)))).
      split; [lia|]. exists (S accepted). lia.
    + change (completedResources (freshProgress extractedData now')) with (∅ : gset string).
      rewrite size_empty. split; [done|]. by exists 0%nat.
Qed.

Section GoalFacts.

Variable extractedData : list (string * RawEntry).
Variable this : EnhancedDQNModel.


End GoalFacts.





(** X7.  [/api/set-goal] accepts every non-empty key of [learningPaths],
    writes nothing but [currentGoal], and a later [/api/suggest-path] whose
    body names no goal plans for the goal that was set: its answer carries
    that goal and the resource recommended for it. *)
Theorem set_goal_then_suggest_path
    (extractedData : list (string * RawEntry)) (this : EnhancedDQNModel)
    (lp : LearnerProgress) (g : string) (path : list string)
    (rnd : nat → bool) (pos : option Position) :
  g ≠ "" → learningPaths this !! g = Some path →
  let lp' := snd (api_set_goal this (Some g) lp) in
  let answer := fst (api_suggest_path extractedData this rnd (mkSuggestBody pos None) lp') in
  fst (api_set_goal this (Some g) lp) = GoalSet g path
  ∧ lp' = mkProgress (completedResources lp) (currentPosition lp) (totalResources lp)
            (score lp) (pathHistory lp) g (sessionStartTime lp) (achievements lp)
  ∧ resp_goal answer = g
  ∧ nextResource answer
    = getNextRecommendedResource extractedData this (completedResources lp) g
  ∧ suggestedPath answer
    = predictPath extractedData this rnd (default (currentPosition lp) pos)
        (completedResources lp) g.
Proof.
  intros Hne Hg lp' answer. subst answer lp'.
  unfold api_set_goal. rewrite (falsy_false g Hne), Hg. by simpl.
Qed.

Lemma set_goal_then_suggest_path_witness :
  let lp' := snd (api_set_goal dqnModel (Some "basic_logic") (freshProgress [] 0)) in
  currentGoal lp' = "basic_logic"
  ∧ nextResource
      (fst (api_suggest_path [] dqnModel Nat.even (mkSuggestBody None None) lp'))
    = Some "Introduction to Mathematical Logic".
Proof.
  intros lp'.
  destruct (set_goal_then_suggest_path [] dqnModel (freshProgress [] 0) "basic_logic"
              basic_logic Nat.even None) as (_ & Hlp & _ & Hnext & _).
  - discriminate.
  - reflexivity.
  - split.
    + subst lp'. rewrite Hlp. reflexivity.
    + subst lp'. rewrite Hnext. vm_compute. reflexivity.
Defined.

(** ** What [/api/learner-progress] shows *)

Section ProgressView.

Variable extractedData : list (string * RawEntry).
Variable this : EnhancedDQNModel.

(** where a count lies among the five thresholds *)
Lemma threshold_band (s : nat) :
  (s < 1 ∨ 1 ≤ s < 5 ∨ 5 ≤ s < 10 ∨ 10 ≤ s < 20 ∨ 20 ≤ s < 50 ∨ 50 ≤ s)%nat.
Proof. lia. Qed.

(** replaces [n <=? x] by the value the context gives it *)
Ltac decide_threshold n x :=
  first [ replace (Nat.leb n x) with true by (symmetry; apply Nat.leb_le; lia)
        | replace (Nat.leb n x) with false by (symmetry; apply Nat.leb_gt; lia) ].

Ltac decide_thresholds x :=
  decide_threshold 1%nat x; decide_threshold 5%nat x; decide_threshold 10%nat x;
  decide_threshold 20%nat x; decide_threshold 50%nat x.

(** the milestones reached, band by band *)
Lemma milestones_reached_cases (s : nat) :
  ((s < 1)%nat ∧ milestones_reached s = [])
  ∨ ((1 ≤ s < 5)%nat ∧ milestones_reached s = ["First Steps"])
  ∨ ((5 ≤ s < 10)%nat ∧ milestones_reached s = ["First Steps"; "Getting Started"])
  ∨ ((10 ≤ s < 20)%nat
     ∧ milestones_reached s = ["First Steps"; "Getting Started"; "Making Progress"])
  ∨ ((20 ≤ s < 50)%nat
     ∧ milestones_reached s
       = ["First Steps"; "Getting Started"; "Making Progress"; "Dedicated Learner"])
  ∨ ((50 ≤ s)%nat
     ∧ milestones_reached s
       = ["First Steps"; "Getting Started"; "Making Progress"; "Dedicated Learner";
          "Expert"]).
Proof.
  unfold milestones_reached, thresholds. cbn [List.filter fst snd].
  destruct (threshold_band s) as [H | [H | [H | [H | [H | H]]]]];
    decide_thresholds s;
    [left | right; left | do 2 right; left | do 3 right; left | do 4 right; left
     | do 5 right]; (split; [exact H | reflexivity]).
Qed.

(** appending the milestones newly reached keeps the list equal to the
    milestones reached, in the order of the thresholds *)
Lemma milestones_reached_step (s s1 : nat) :
  (s ≤ s1)%nat →
  milestones_reached s
  ++ map fst (List.filter
                (fun m : string * nat =>
                   Nat.leb (snd m) s1 && negb (includes (fst m) (milestones_reached s)))
                thresholds)
  = milestones_reached s1.
Proof.
  intros Hle.
  destruct (milestones_reached_cases s)
    as [[H ->] | [[H ->] | [[H ->] | [[H ->] | [[H ->] | [H ->]]]]]];
    destruct (milestones_reached_cases s1)
      as [[H1 ->] | [[H1 ->] | [[H1 ->] | [[H1 ->] | [[H1 ->] | [H1 ->]]]]]];
    try (exfalso; lia);
    unfold thresholds; cbn [List.filter fst snd];
    decide_thresholds s1; vm_compute; reflexivity.
Qed.

Lemma reachable_achievements_exact (reqs : list Request) (now : Z) :
  let lp := run extractedData this reqs (freshProgress extractedData now) in
  achievements lp = milestones_reached (size (completedResources lp)).
Proof.
  cbv zeta. induction reqs as [|req reqs IH] using rev_ind; [reflexivity|].
  rewrite run_snoc.
  destruct (handle_cases extractedData this
              (run extractedData this reqs (freshProgress extractedData now)) req)
    as [(_ & Hc & Ha & _) | [(_ & R & pos & _ & _ & ->) | (now' & _ & ->)]].
  - by rewrite Hc, Ha.
  - rewrite checkAchievements_appends.
    destruct (checkAchievements_frame
                (addCompleted R pos
                   (run extractedData this reqs (freshProgress extractedData now))))
      as (-> & _).
    unfold unlocks_now.
    change (achievements (addCompleted R pos ?lp)) with (achievements lp).
    rewrite IH. apply milestones_reached_step.
    apply subseteq_size. simpl. apply union_subseteq_r.
  - reflexivity.
Qed.

Lemma milestone_views_split (s : nat) :
  map (fun name => mkAchievementView name true) (milestones_reached s)
  ++ List.filter (fun a => negb (includes (ach_name a) (milestones_reached s)))
       (milestone_views s)
  = milestone_views s.
Proof.
  destruct (milestones_reached_cases s)
    as [[H ->] | [[H ->] | [[H ->] | [[H ->] | [[H ->] | [H ->]]]]]];
    unfold milestone_views, thresholds; cbn [map fst snd];
    decide_thresholds s; vm_compute; reflexivity.
Qed.

End ProgressView.

(** X8.  In every store the server reaches, the [achievements] array of
    [/api/learner-progress] is the five milestones, once each and in the
    order of their thresholds, every one flagged [unlocked] exactly when
    the completed count has reached its threshold; the stored list is the
    milestones reached, in that order. *)
Theorem learner_progress_lists_each_milestone_once
    (extractedData : list (string * RawEntry)) (this : EnhancedDQNModel)
    (reqs : list Request) (now : Z) :
  let lp := run extractedData this reqs (freshProgress extractedData now) in
  let completed := size (completedResources lp) in
  achievements lp = milestones_reached completed
  ∧ pr_achievements (fst (api_learner_progress extractedData this lp))
    = [mkAchievementView "First Steps" (Nat.leb 1 completed);
       mkAchievementView "Getting Started" (Nat.leb 5 completed);
       mkAchievementView "Making Progress" (Nat.leb 10 completed);
       mkAchievementView "Dedicated Learner" (Nat.leb 20 completed);
       mkAchievementView "Expert" (Nat.leb 50 completed)].
Proof.
  intros lp completed.
  pose proof (reachable_achievements_exact extractedData this reqs now) as Hexact.
  cbv zeta in Hexact. fold lp in Hexact. fold completed in Hexact.
  split; [exact Hexact|].
  unfold api_learner_progress. cbn [fst pr_achievements]. fold completed.
  rewrite Hexact. apply (milestone_views_split completed).
Qed.



(** ** The shape of the paths of the prerequisite-aware server *)

Section EnhancedShape.

Variable this : EnhancedDQNModel.
Variable rnd : nat → bool.

Lemma applyAction_label (right : bool) (current current' : Position) (actionName : string) :
  applyAction this right current = Some (current', actionName) →
  (actionName = "UP" ∧ right = false
   ∧ current' = mkPosition (pos_x current) (JS.incr (pos_y current))
   ∧ JS.lt (pos_y current) (JS.Num (gridSizeY this - 1)) = true)
  ∨ (actionName = "RIGHT" ∧ right = true
     ∧ current' = mkPosition (JS.incr (pos_x current)) (pos_y current)
     ∧ JS.lt (pos_x current) (JS.Num (gridSizeX this - 1)) = true).
Proof.
  unfold applyAction. destruct right; simpl.
  - destruct (JS.lt (pos_x current) _) eqn:Hlt; [|done].
    intros [= <- <-]. by right.
  - destruct (JS.lt (pos_y current) _) eqn:Hlt; [|done].
    intros [= <- <-]. by left.
Qed.

(** what the loop pushes: steps numbered on from [steps + 1], each labelled
    UP or RIGHT *)
Lemma dqn_loop_numbered (fuel : nat) (target : Position) :
  ∀ (steps : nat) (current : Position) (path result : list PathStep),
    dqn_loop this fuel rnd target steps current path = Some result →
    ∃ pushed : list PathStep,
      result = path ++ pushed
      ∧ ∀ i s, pushed !! i = Some s →
               step_index s = Some (S (steps + i))
               ∧ (step_action s = "UP" ∨ step_action s = "RIGHT").
Proof.
  induction fuel as [|fuel IH]; intros steps current path result; cbn [dqn_loop].
  - destruct (_ && _); [done|]. intros [= <-]. exists []. by rewrite app_nil_r.
  - destruct (_ && _); [|intros [= <-]; exists []; by rewrite app_nil_r].
    destruct (chooseAction rnd steps current target) as [action|];
      [|intros [= <-]; exists []; by rewrite app_nil_r].
    destruct (applyAction this action current) as [[current' actionName]|] eqn:Happly;
      [|intros [= <-]; exists []; by rewrite app_nil_r].
    intros Hrun. apply IH in Hrun as (pushed & -> & Hpushed).
    eexists (_ :: pushed). rewrite <- app_assoc. split; [reflexivity|].
    intros [|i] s; simpl.
    + intros [= <-]. simpl. split; [f_equal; lia|].
      apply applyAction_label in Happly as [(-> & _) | (-> & _)]; [by left | by right].
    + intros Hs. destruct (Hpushed i s Hs) as [Hidx Hact].
      split; [|done]. rewrite Hidx. f_equal. lia.
Qed.


End EnhancedShape.



(** ** What [predictPath] answers *)

Section PredictPathFacts.

Variable extractedData : list (string * RawEntry).
Variable this : EnhancedDQNModel.

Lemma generateDQNPath_not_sentinel (rnd : nat → bool) (start target : Position)
    (action : string) :
  generateDQNPath this rnd start target ≠ sentinel this action.
Proof.
  intros Heq.
  destruct (generateDQNPath_fuel_total this rnd start target) as (path & Hrun & Hpath & _).
  unfold generateDQNPath_fuel in Hrun.
  apply dqn_loop_numbered in Hrun as (pushed & -> & Hpushed). simpl in Hpath.
  rewrite Heq in Hpath. subst pushed.
  destruct (Hpushed 0%nat _ eq_refl) as [Hidx _]. discriminate.
Qed.

Lemma find_by_name_none (name : string) (l : list Resource) :
  name ∉ map res_name l →
  List.find (fun r => String.eqb (res_name r) name) l = None.
Proof.
  intros Hnot. destruct (List.find _ l) as [r|] eqn:Hfind; [|done].
  apply find_some_test in Hfind as [Hin Heq]. apply String.eqb_eq in Heq.
  exfalso. apply Hnot. apply list_elem_of_fmap. by exists r.
Qed.

End PredictPathFacts.

(** X11.  [predictPath] answers with the single step "goal_reached" on the
    top right cell exactly when nothing is available, an empty catalog
    included; with "resource_not_found" when the recommended name, taken
    from the learning path, is not in the catalog; and with "path_complete"
    only for a recommended name that is the empty string: while something
    is available [getNextRecommendedResource] is never [null]. *)
Theorem predictPath_sentinel_steps
    (extractedData : list (string * RawEntry)) (this : EnhancedDQNModel)
    (rnd : nat → bool) (currentPos : Position) (C : gset string) (g : string) :
  let path := predictPath extractedData this rnd currentPos C g in
  (path = sentinel this "goal_reached" ↔ getAvailableResources extractedData this C = [])
  ∧ (getAvailableResources extractedData this C ≠ [] →
     getNextRecommendedResource extractedData this C g ≠ None)
  ∧ (path = sentinel this "path_complete" →
     getNextRecommendedResource extractedData this C g = Some "")
  ∧ (∀ name, getAvailableResources extractedData this C ≠ [] →
             getNextRecommendedResource extractedData this C g = Some name →
             name ≠ "" → name ∉ catalog_names extractedData →
             path = sentinel this "resource_not_found").
Proof.
  intros path. subst path. unfold predictPath.
  pose proof (available_then_recommended extractedData this C g) as Hrec.
  destruct (getAvailableResources extractedData this C) as [|r rest] eqn:Havail.
  { split; [done|]. split; [done|]. split; [|done]. intros [=]. }
  specialize (Hrec ltac:(done)).
  destruct (getNextRecommendedResource extractedData this C g) as [name|] eqn:Hnext;
    [|done].
  destruct (JS.falsy name) eqn:Hfalsy.
  { apply String.eqb_eq in Hfalsy. subst name.
    split; [split; [intros [=] | done]|]. split; [done|]. split; [done|].
    intros name _ [= <-] Hne. done. }
  destruct (List.find _ (getResourcePositions extractedData this)) as [target|] eqn:Hfind.
  - split; [split; [|done]|].
    { intros Heq. by apply generateDQNPath_not_sentinel in Heq. }
    split; [done|]. split.
    { intros Heq. by apply generateDQNPath_not_sentinel in Heq. }
    intros name' _ [= <-] _ Hnot. exfalso.
    rewrite find_by_name_none in Hfind; [done|].
    by rewrite getResourcePositions_names.
  - split; [split; [intros [=] | done]|]. split; [done|]. split; [intros [=]|]. done.
Qed.

Lemma predictPath_sentinel_steps_witness :
  predictPath [] dqnModel Nat.even (mkPosition (JS.Num 0) (JS.Num 0)) ∅ "basic_logic"
  = sentinel dqnModel "goal_reached"
  ∧ predictPath [("Sets", mkRawEntry (1 # 2) (1 # 2))] dqnModel Nat.even
      (mkPosition (JS.Num 0) (JS.Num 0)) {["Introduction to Mathematical Logic"]}
      "basic_logic"
    = sentinel dqnModel "resource_not_found".
Proof.
  split.
  - apply (proj1 (predictPath_sentinel_steps [] dqnModel Nat.even
                    (mkPosition (JS.Num 0) (JS.Num 0)) ∅ "basic_logic")).
    reflexivity.
  - apply (proj2 (proj2 (proj2 (predictPath_sentinel_steps
             [("Sets", mkRawEntry (1 # 2) (1 # 2))] dqnModel Nat.even
             (mkPosition (JS.Num 0) (JS.Num 0)) {["Introduction to Mathematical Logic"]}
             "basic_logic"))) "Logical Equivalence").
    + vm_compute. discriminate.
    + vm_compute. reflexivity.
    + discriminate.
    + intros Hin. vm_compute in Hin. apply list_elem_of_singleton in Hin. discriminate.
Defined.

(** X12.  No answer of [predictPath], hence no [suggestedPath] of
    [/api/suggest-path], has more than 20 steps, whatever the position, the
    completed set and the goal; and the loop of [generateDQNPath] always
    exits within its 20 iterations. *)
Theorem suggested_path_has_at_most_maxSteps
    (extractedData : list (string * RawEntry)) (this : EnhancedDQNModel)
    (rnd : nat → bool) :
  (∀ start target : Position,
     generateDQNPath_fuel this maxSteps rnd start target
     = Some (generateDQNPath this rnd start target)
     ∧ (length (generateDQNPath this rnd start target) ≤ 20)%nat)
  ∧ (∀ (currentPos : Position) (C : gset string) (g : string),
       (length (predictPath extractedData this rnd currentPos C g) ≤ 20)%nat)
  ∧ (∀ (body : SuggestBody) (lp : LearnerProgress),
       (length (suggestedPath (fst (api_suggest_path extractedData this rnd body lp)))
        ≤ 20)%nat).
Proof.
  assert (Hgen : ∀ start target : Position,
            generateDQNPath_fuel this maxSteps rnd start target
            = Some (generateDQNPath this rnd start target)
            ∧ (length (generateDQNPath this rnd start target) ≤ 20)%nat).
  { intros start target.
    destruct (generateDQNPath_fuel_total this rnd start target) as (path & Hrun & <- & Hlen).
    split; [|exact Hlen]. unfold generateDQNPath. by rewrite Hrun. }
  assert (Hpredict : ∀ (currentPos : Position) (C : gset string) (g : string),
            (length (predictPath extractedData this rnd currentPos C g) ≤ 20)%nat).
  { intros currentPos C g. unfold predictPath.
    destruct (getAvailableResources extractedData this C); [simpl; lia|].
    destruct (getNextRecommendedResource extractedData this C g) as [name|];
      [|simpl; lia].
    destruct (JS.falsy name); [simpl; lia|].
    destruct (List.find _ _); [apply Hgen | simpl; lia]. }
  split; [exact Hgen|]. split; [exact Hpredict|].
  intros body lp. apply Hpredict.
Qed.

(** X13.  When both grid sizes are at least 1, [getResourcePositions] of
    the prerequisite-aware server lists the catalog names in catalog order,
    one resource per entry, each on a cell of the grid. *)
Theorem enhanced_positions_keep_names_and_fit_the_grid
    (extractedData : list (string * RawEntry)) (this : EnhancedDQNModel) :
  1 ≤ gridSizeX this → 1 ≤ gridSizeY this →
  map res_name (getResourcePositions extractedData this) = map fst extractedData
  ∧ length (getResourcePositions extractedData this) = length extractedData
  ∧ ∀ r, r ∈ getResourcePositions extractedData this →
         0 ≤ res_x r ≤ gridSizeX this - 1 ∧ 0 ≤ res_y r ≤ gridSizeY this - 1.
Proof.
  intros Hx Hy. split; [apply getResourcePositions_names|]. split.
  - unfold getResourcePositions. apply length_map.
  - intros r Hr.
    by destruct (getResourcePositions_in_grid extractedData this r Hx Hy Hr) as [_ Hgrid].
Qed.

Lemma enhanced_positions_keep_names_and_fit_the_grid_witness :
  let catalog := [("Quiz 1", mkRawEntry (7 # 2) (-1 # 2));
                  ("Sets", mkRawEntry (1 # 2) (49 # 100))] in
  getResourcePositions catalog dqnModel = [mkResource "Quiz 1" 19 0; mkResource "Sets" 10 9]
  ∧ ∀ r, r ∈ getResourcePositions catalog dqnModel →
         0 ≤ res_x r ≤ 19 ∧ 0 ≤ res_y r ≤ 19.
Proof.
  intros catalog. split; [vm_compute; reflexivity|].
  apply (enhanced_positions_keep_names_and_fit_the_grid catalog dqnModel); simpl; lia.
Defined.

(** X14.  When the recommended resource is in the catalog, on a cell that
    is neither left of nor below the current cell and at most 20 moves
    away, the path of [predictPath] ends on the cell of that resource,
    which is not completed, after as many steps as the distance. *)
Theorem suggested_path_leads_to_recommended_resource
    (extractedData : list (string * RawEntry)) (rnd : nat → bool)
    (a b : Z) (C : gset string) (g name : string) (target : Resource) :
  let start := mkPosition (JS.Num a) (JS.Num b) in
  let path := predictPath extractedData dqnModel rnd start C g in
  0 ≤ a → 0 ≤ b →
  getNextRecommendedResource extractedData dqnModel C g = Some name → name ≠ "" →
  List.find (fun r => String.eqb (res_name r) name)
    (getResourcePositions extractedData dqnModel) = Some target →
  a ≤ res_x target → b ≤ res_y target →
  (manhattan a b (res_x target) (res_y target) ≤ maxSteps)%nat →
  final_position start path = position_of target
  ∧ length path = manhattan a b (res_x target) (res_y target)
  ∧ res_name target = name
  ∧ name ∉ C.
Proof.
  intros start path Ha Hb Hnext Hne Hfind Hle_a Hle_b Hdist.
  apply find_some_test in Hfind as Hfound. destruct Hfound as [Hin Hname].
  apply String.eqb_eq in Hname.
  destruct (proj1 (recommendNext_is_sound_aux extractedData dqnModel C g) name Hnext)
    as [HnotC Hmet].
  assert (Havail : target ∈ getAvailableResources extractedData dqnModel C).
  { apply elem_of_getAvailableResources. split; [done|]. rewrite Hname. by split. }
  destruct (getResourcePositions_in_grid extractedData dqnModel target) as (_ & Hx & Hy);
    [simpl; lia | simpl; lia | done |].
  destruct (generateDQNPath_reaches dqnModel rnd a b (res_x target) (res_y target))
    as (reached & _ & Hpath & _ & Hfinal & Hlen);
    [lia | lia | lia | lia | unfold manhattan in Hdist; lia |].
  assert (Hpredict : path = reached).
  { subst path. unfold predictPath.
    destruct (getAvailableResources extractedData dqnModel C) eqn:Hav;
      [by apply elem_of_nil in Havail|].
    rewrite Hnext, (falsy_false name Hne), Hfind. exact Hpath. }
  rewrite Hpredict. split; [exact Hfinal|]. split; [|by split].
  rewrite Hlen. unfold manhattan. f_equal. lia.
Qed.

Lemma suggested_path_leads_to_recommended_resource_witness :
  let catalog := [("Introduction to Mathematical Logic", mkRawEntry (1 # 4) (3 # 10))] in
  let start := mkPosition (JS.Num 1) (JS.Num 2) in
  final_position start (predictPath catalog dqnModel Nat.even start ∅ "complete_course")
  = mkPosition (JS.Num 5) (JS.Num 6)
  ∧ length (predictPath catalog dqnModel Nat.even start ∅ "complete_course") = 8%nat.
Proof.
  intros catalog start.
  destruct (suggested_path_leads_to_recommended_resource catalog Nat.even 1 2 ∅
              "complete_course" "Introduction to Mathematical Logic"
              (mkResource "Introduction to Mathematical Logic" 5 6))
    as (Hfinal & Hlen & _).
  - lia.
  - lia.
  - vm_compute. reflexivity.
  - discriminate.
  - vm_compute. reflexivity.
  - simpl. lia.
  - simpl. lia.
  - vm_compute. lia.
  - split; [exact Hfinal | exact Hlen].
Defined.

(** X15.  A path from a position to itself is empty: [generateDQNPath]
    returns no step for every position, and so does [generatePathTo] of the
    first server unless a coordinate is [NaN], in which case its loop never
    exits. *)
Theorem path_to_the_current_position_is_empty :
  (∀ (this : EnhancedDQNModel) (rnd : nat → bool) (p : Position),
     generateDQNPath this rnd p p = [])
  ∧ (∀ (fuel : nat) (p : Position),
       pos_x p ≠ JS.NaN → pos_y p ≠ JS.NaN → Mock.generatePathTo fuel p p = Some [])
  ∧ (∀ (fuel : nat) (y : JS.value),
       Mock.generatePathTo fuel (mkPosition JS.NaN y) (mkPosition JS.NaN y) = None).
Proof.
  split; [|split].
  - intros this rnd [x y]. unfold generateDQNPath, generateDQNPath_fuel, maxSteps.
    cbn [dqn_loop]. unfold chooseAction.
    destruct x as [x| |], y as [y| |]; simpl;
      rewrite ?Z.eqb_refl, ?Z.ltb_irrefl; reflexivity.
  - intros fuel [x y] Hx Hy. simpl in Hx, Hy. unfold Mock.generatePathTo.
    apply path_loop_exit. destruct x as [x| |], y as [y| |]; simpl;
      rewrite ?Z.eqb_refl; done.
  - intros fuel y. unfold Mock.generatePathTo.
    induction fuel as [|fuel IH]; [reflexivity|].
    cbn [Mock.path_loop]. simpl. unfold Mock.stepTowards. simpl.
    destruct y as [y| |]; simpl; rewrite ?Z.ltb_irrefl; simpl; exact IH.
Qed.

Lemma path_to_the_current_position_is_empty_witness :
  Mock.generatePathTo 0 (mkPosition (JS.Num 3) JS.Undefined)
    (mkPosition (JS.Num 3) JS.Undefined) = Some [].
Proof.
  apply (proj1 (proj2 path_to_the_current_position_is_empty)); discriminate.
Defined.

(** ** The tables of the model *)

(** X16.  The prerequisite map of the model has no cycle: [course_order]
    lists its names without repetition and every name comes after each of
    its prerequisites. *)
Theorem prerequisite_map_is_acyclic :
  NoDup course_order
  ∧ (∀ r, is_Some (prerequisites dqnModel !! r) → r ∈ course_order)
  ∧ ∀ p r, is_prerequisite dqnModel p r →
           p ∈ course_order ∧ (course_rank p < course_rank r)%nat.
Proof.
  assert (Hkeys : ∀ r ps, prerequisites dqnModel !! r = Some ps →
            (r, ps) ∈ map_to_list (prerequisites dqnModel)).
  { intros r ps H. by apply elem_of_map_to_list. }
  split; [apply (bool_decide_unpack _); vm_compute; exact I|].
  split.
  - intros r [ps Hps]. apply Hkeys in Hps.
    let entries := eval vm_compute in (map_to_list (prerequisites dqnModel)) in
    change (map_to_list (prerequisites dqnModel)) with entries in Hps.
    repeat (apply elem_of_cons in Hps as [Hps | Hps];
            [injection Hps as -> _; apply (bool_decide_unpack _); vm_compute; exact I|]).
    by apply elem_of_nil in Hps.
  - intros p r (ps & Hps & Hp). apply Hkeys in Hps.
    let entries := eval vm_compute in (map_to_list (prerequisites dqnModel)) in
    change (map_to_list (prerequisites dqnModel)) with entries in Hps.
    repeat (apply elem_of_cons in Hps as [Hps | Hps];
            [injection Hps as -> ->;
             repeat (apply elem_of_cons in Hp as [-> | Hp];
                     [split; [apply (bool_decide_unpack _); vm_compute; exact I
                             | vm_compute; lia]|]);
             by apply elem_of_nil in Hp|]).
    by apply elem_of_nil in Hps.
Qed.

Lemma prerequisite_map_is_acyclic_witness :
  (course_rank "Rules of Inference" < course_rank "Predicate Logic")%nat.
Proof.
  apply (proj2 (proj2 prerequisite_map_is_acyclic)).
  exists ["Rules of Inference"; "Resolution"]. split; [reflexivity | by left].
Defined.



(** ** Paths of the first server between integer cells *)

Section MockWalk.

Variables ta tb : Z.

Local Abbreviation target := (mkPosition (JS.Num ta) (JS.Num tb)).



End MockWalk.





(** ** The catalog and the target of the first server *)




(** ** The target of [predictPath] on the first server *)

Section MockNearest.

Variables a b : Z.

Local Abbreviation here := (mkPosition (JS.Num a) (JS.Num b)).




End MockNearest.



(** ** The two servers side by side *)

(** X22.  The prerequisite-aware server is the first server behind a gate.
    On the same body and the same store, [/api/complete] of both answers
    400 for a missing name together; when the prerequisite-aware server
    accepts, both report the same counts and score and end in the same
    store (achievements apart); when it rejects for prerequisites, the
    first server accepts all the same.  So after any series of requests
    the completed set of the prerequisite-aware server is included in that
    of the first server, and its score is not above. *)
Theorem complete_is_the_first_server_behind_a_gate
    (extractedData : list (string * RawEntry)) (this : EnhancedDQNModel) :
  (∀ (body : CompleteBody) (lp : LearnerProgress),
     let answer := api_complete extractedData this body lp in
     let mock_answer := Mock.api_complete (mock_body body) (mock_view lp) in
     (fst answer = NameRequired ↔ fst mock_answer = Mock.NameRequired)
     ∧ (∀ completed total newScore unlocked next,
          fst answer = Completed completed total newScore unlocked next →
          fst mock_answer = Mock.Completed completed total newScore
          ∧ snd mock_answer = mock_view (snd answer))
     ∧ (∀ missing, fst answer = PrerequisitesNotMet missing →
                   mock_succeeded (fst mock_answer)))
  ∧ (∀ (bodies : list CompleteBody) (lp : LearnerProgress),
       let after := complete_each extractedData this bodies lp in
       let mock_after := mock_complete_each bodies (mock_view lp) in
       completedResources after ⊆ Mock.completedResources mock_after
       ∧ score after ≤ Mock.score mock_after
       ∧ totalResources after = Mock.totalResources mock_after).
Proof.
  split.
  - intros body lp. cbv zeta.
    unfold api_complete, Mock.api_complete, mock_body.
    cbn [Mock.body_resourceName Mock.body_position].
    destruct (body_resourceName body) as [R|].
    + destruct (JS.falsy R).
      * split; [done|]. split; [discriminate|discriminate].
      * destruct (checkPrerequisites this R (completedResources lp)); cbn [negb fst snd].
        -- split; [split; discriminate|]. split; [|discriminate].
           intros completed total newScore unlocked next Heq.
           injection Heq as <- <- <- _ _. done.
        -- split; [split; discriminate|]. split; [discriminate|]. done.
    + split; [done|]. split; [discriminate|discriminate].
  - intros bodies lp. cbv zeta.
    assert (Hgen : ∀ (m : Mock.LearnerProgress),
              completedResources lp ⊆ Mock.completedResources m →
              score lp ≤ Mock.score m →
              totalResources lp = Mock.totalResources m →
              completedResources (complete_each extractedData this bodies lp)
                ⊆ Mock.completedResources (mock_complete_each bodies m)
              ∧ score (complete_each extractedData this bodies lp)
                ≤ Mock.score (mock_complete_each bodies m)
              ∧ totalResources (complete_each extractedData this bodies lp)
                = Mock.totalResources (mock_complete_each bodies m)).
    { revert lp. induction bodies as [|body bodies IH]; intros lp m Hsub Hscore Htotal.
      - done.
      - unfold complete_each, mock_complete_each. cbn [fold_left].
        fold (complete_each extractedData this bodies
                (snd (api_complete extractedData this body lp))).
        fold (mock_complete_each bodies (snd (Mock.api_complete (mock_body body) m))).
        apply IH; unfold api_complete, Mock.api_complete, mock_body;
          cbn [Mock.body_resourceName Mock.body_position];
          (destruct (body_resourceName body) as [R|]; [|done]);
          (destruct (JS.falsy R); [done|]);
          destruct (checkPrerequisites this R (completedResources lp));
          cbn [negb fst snd Mock.completedResources Mock.score Mock.totalResources];
          rewrite ?(proj1 (checkAchievements_frame _)),
                  ?(proj1 (proj2 (proj2 (proj2 (checkAchievements_frame _))))),
                  ?(proj1 (proj2 (proj2 (checkAchievements_frame _))));
          cbn [completedResources score totalResources];
          try done; try lia.
        + by apply union_mono_l.
        + by apply union_subseteq_r'. }
    apply Hgen; done.
Qed.

Lemma complete_is_the_first_server_behind_a_gate_witness :
  let body := mkCompleteBody (Some "Introduction to Mathematical Logic") None in
  let lp := freshProgress [] 0 in
  fst (Mock.api_complete (mock_body body) (mock_view lp)) = Mock.Completed 1 0 10
  ∧ snd (Mock.api_complete (mock_body body) (mock_view lp))
    = mock_view (snd (api_complete [] dqnModel body lp)).
Proof.
  intros body lp.
  apply (proj1 (proj2 (proj1 (complete_is_the_first_server_behind_a_gate [] dqnModel)
                         body lp))
           1%nat 0%nat 10 ["First Steps"] []).
  vm_compute. reflexivity.
Defined.
